(** * Mergington High School API: activity roster and testimonial store

    A shallow embedding of [src/app.py].  The request handlers are
    functions that take the state they touch (the in-memory [activities]
    dict, or the SQLite table behind [DB_PATH]) and give back what the
    handler returns or raises together with the state it leaves behind. *)

From Stdlib Require Import ZArith String Ascii Sorted Permutation.
From stdpp Require Import base option list sorting gmap strings.

Local Open Scope string_scope.
Local Open Scope list_scope.
Local Open Scope Z_scope.

(** ** Values that cross the HTTP boundary *)

(** The handlers answer with Python dicts of strings, integers and
    booleans; FastAPI serialises them as JSON objects. *)
Inductive json : Type :=
| JInt (z : Z)
| JStr (s : string)
| JBool (b : bool).

#[global] Instance json_eq_dec : EqDecision json.
Proof. solve_decision. Defined.

Abbreviation dict := (list (string * json)).

(** [d.get(key)]: the value of the first entry under [key]. *)
Fixpoint dict_get (key : string) (d : dict) : option json :=
  match d with
  | [] => None
  | (k, v) :: d' => if decide (k = key) then Some v else dict_get key d'
  end.

(** What a handler can raise.  [HTTPException] is FastAPI's; [ValueError]
    is what [list.remove] raises on a missing element; [OverflowError] is
    what [sqlite3] raises when a Python int given as a statement parameter
    does not fit SQLite's 64-bit INTEGER. *)
Inductive exn : Type :=
| HTTPException (status_code : Z) (detail : string)
| ValueError
| OverflowError.

Inductive outcome (A : Type) : Type :=
| Returns (a : A)
| Raises (e : exn).
Arguments Returns {A} a.
Arguments Raises {A} e.

(** The error names of the specification, as the handlers spell them. *)
Definition ActivityNotFound : exn := HTTPException 404 "Activity not found".
Definition AlreadyEnrolled : exn := HTTPException 400 "Student is already signed up".
Definition NotEnrolled : exn :=
  HTTPException 400 "Student is not signed up for this activity".
Definition TestimonialNotFound : exn := HTTPException 404 "Testimonial not found".

(** ** The activity roster *)

Module Roster.

Record Activity : Type := mkActivity {
  description : string;
  schedule : string;
  max_participants : Z;
  participants : list string
}.

Definition set_participants (a : Activity) (ps : list string) : Activity :=
  {| description := description a;
     schedule := schedule a;
     max_participants := max_participants a;
     participants := ps |}.

(** The module-level [activities] dict of the source. *)
Definition activities : gmap string Activity :=
  <["Chess Club" := mkActivity
      "Learn strategies and compete in chess tournaments"
      "Fridays, 3:30 PM - 5:00 PM" 12
      ["michael@mergington.edu"; "daniel@mergington.edu"]]> (
  <["Programming Class" := mkActivity
      "Learn programming fundamentals and build software projects"
      "Tuesdays and Thursdays, 3:30 PM - 4:30 PM" 20
      ["emma@mergington.edu"; "sophia@mergington.edu"]]> (
  <["Gym Class" := mkActivity
      "Physical education and sports activities"
      "Mondays, Wednesdays, Fridays, 2:00 PM - 3:00 PM" 30
      ["john@mergington.edu"; "olivia@mergington.edu"]]> (
  <["Soccer Team" := mkActivity
      "Join the school soccer team and compete in matches"
      "Tuesdays and Thursdays, 4:00 PM - 5:30 PM" 22
      ["liam@mergington.edu"; "noah@mergington.edu"]]> (
  <["Basketball Team" := mkActivity
      "Practice and play basketball with the school team"
      "Wednesdays and Fridays, 3:30 PM - 5:00 PM" 15
      ["ava@mergington.edu"; "mia@mergington.edu"]]> (
  <["Art Club" := mkActivity
      "Explore your creativity through painting and drawing"
      "Thursdays, 3:30 PM - 5:00 PM" 15
      ["amelia@mergington.edu"; "harper@mergington.edu"]]> (
  <["Drama Club" := mkActivity
      "Act, direct, and produce plays and performances"
      "Mondays and Wednesdays, 4:00 PM - 5:30 PM" 20
      ["ella@mergington.edu"; "scarlett@mergington.edu"]]> (
  <["Math Club" := mkActivity
      "Solve challenging problems and participate in math competitions"
      "Tuesdays, 3:30 PM - 4:30 PM" 10
      ["james@mergington.edu"; "benjamin@mergington.edu"]]> (
  <["Debate Team" := mkActivity
      "Develop public speaking and argumentation skills"
      "Fridays, 4:00 PM - 5:30 PM" 12
      ["charlotte@mergington.edu"; "henry@mergington.edu"]]> ∅)))))))).

(** [get_activities]: the whole dict, untouched. *)
Definition get_activities (acts : gmap string Activity) : gmap string Activity := acts.

(** Python's [list.remove(x)]: drops the first element equal to [x];
    [None] stands for the [ValueError] raised when there is none. *)
Fixpoint list_remove (x : string) (l : list string) : option (list string) :=
  match l with
  | [] => None
  | y :: l' => if decide (y = x) then Some l' else cons y <$> list_remove x l'
  end.

Definition signup_for_activity (activity_name email : string)
    (acts : gmap string Activity) : outcome dict * gmap string Activity :=
  match acts !! activity_name with
  | None => (Raises (HTTPException 404 "Activity not found"), acts)
  | Some activity =>
      if decide (email ∈ participants activity) then
        (Raises (HTTPException 400 "Student is already signed up"), acts)
      else
        (Returns [("message",
                   JStr ("Signed up " +:+ email +:+ " for " +:+ activity_name))],
         <[activity_name :=
             set_participants activity (participants activity ++ [email])]> acts)
  end.

Definition unregister_from_activity (activity_name email : string)
    (acts : gmap string Activity) : outcome dict * gmap string Activity :=
  match acts !! activity_name with
  | None => (Raises (HTTPException 404 "Activity not found"), acts)
  | Some activity =>
      if decide (email ∉ participants activity) then
        (Raises (HTTPException 400 "Student is not signed up for this activity"),
         acts)
      else
        match list_remove email (participants activity) with
        | None => (Raises ValueError, acts)
        | Some ps =>
            (Returns [("message",
                       JStr ("Unregistered " +:+ email +:+ " from " +:+ activity_name))],
             <[activity_name := set_participants activity ps]> acts)
        end
  end.

(** The two mutating routes, and a run of the server over a sequence of
    requests starting from a given roster. *)
Inductive request : Type :=
| Signup (activity_name email : string)
| Unregister (activity_name email : string).

Definition handle (r : request) (acts : gmap string Activity)
    : outcome dict * gmap string Activity :=
  match r with
  | Signup n e => signup_for_activity n e acts
  | Unregister n e => unregister_from_activity n e acts
  end.

Definition serve (rs : list request) (acts : gmap string Activity)
    : gmap string Activity :=
  foldl (fun a r => (handle r a).2) acts rs.

(** Nine more students ask for the Math Club (capacity 10, two seeded). *)
Definition math_club_rush : list request :=
  Signup "Math Club" <$>
    ["s1@mergington.edu"; "s2@mergington.edu"; "s3@mergington.edu";
     "s4@mergington.edu"; "s5@mergington.edu"; "s6@mergington.edu";
     "s7@mergington.edu"; "s8@mergington.edu"; "s9@mergington.edu"].

(** The participant list of an activity, empty when there is no such
    activity. *)
Definition participants_of (acts : gmap string Activity) (n : string) : list string :=
  default [] (participants <$> acts !! n).

(** Every participant list is duplicate-free. *)
Definition unique_participants (acts : gmap string Activity) : Prop :=
  ∀ n a, acts !! n = Some a → NoDup (participants a).

(** The activity a request is addressed to. *)
Definition target (r : request) : string :=
  match r with
  | Signup n _ | Unregister n _ => n
  end.

(** What one request adds to the participant count of activity [n]: a
    signup that returns counts one, an unregistration that returns takes
    one away, a request that raises or names another activity counts
    nothing. *)
Definition delta (n : string) (r : request) (acts : gmap string Activity) : Z :=
  match (handle r acts).1 with
  | Raises _ => 0
  | Returns _ =>
      if decide (target r = n)
      then match r with Signup _ _ => 1 | Unregister _ _ => -1 end
      else 0
  end.

(** The same, summed over a run. *)
Fixpoint tally (n : string) (rs : list request) (acts : gmap string Activity) : Z :=
  match rs with
  | [] => 0
  | r :: rs' => delta n r acts + tally n rs' (handle r acts).2
  end.

(** The fields of an activity that no handler assigns. *)
Definition metadata (a : Activity) : string * string * Z :=
  (description a, schedule a, max_participants a).

End Roster.

(** ** The testimonial store *)

Module Testimonials.

(** One row of the [testimonials] table.  [approved] is the INTEGER column
    of the schema (0 or 1 in every row the handlers write) and
    [created_at] the TEXT column holding the ISO-8601 string. *)
Record Row : Type := mkRow {
  row_id : Z;
  row_author : string;
  row_text : string;
  row_approved : Z;
  row_created_at : string
}.

#[global] Instance Row_eq_dec : EqDecision Row.
Proof. solve_decision. Defined.

(** The table as SQLite keeps it: its rows in insertion order and the
    AUTOINCREMENT counter ([sqlite_sequence]), the largest rowid ever
    handed out. *)
Record Table : Type := mkTable {
  rows : list Row;
  seq : Z
}.

(** [init_db]: CREATE TABLE IF NOT EXISTS.  [None] is a database file
    without the table. *)
Definition init_db (db : option Table) : Table :=
  match db with
  | None => mkTable [] 0
  | Some t => t
  end.

(** A connection works on a private copy until [commit]; [close] gives
    back what is on disk, dropping whatever was not committed. *)
Record Connection : Type := mkConnection {
  disk : Table;
  txn : Table
}.

Definition connect (db : Table) : Connection := mkConnection db db.
Definition commit (conn : Connection) : Connection := mkConnection (txn conn) (txn conn).
Definition close (conn : Connection) : Table := disk conn.

Definition max_rowid (rs : list Row) : Z := foldr Z.max 0 (row_id <$> rs).

(** AUTOINCREMENT: one more than the largest rowid the table has ever
    held, be it still in the table or only remembered by the counter. *)
Definition next_rowid (t : Table) : Z := Z.max (seq t) (max_rowid (rows t)) + 1.

(** INSERT INTO testimonials (author, text, approved, created_at)
    VALUES (?, ?, 0, ?): the row gets the next rowid, which the counter
    then remembers; the result also carries [cur.lastrowid]. *)
Definition execute_insert (author text now : string) (conn : Connection)
    : Connection * Z :=
  let t := txn conn in
  let rowid := next_rowid t in
  (mkConnection (disk conn)
     (mkTable (rows t ++ [mkRow rowid author text 0 now]) rowid),
   rowid).

(** SELECT approved FROM testimonials WHERE id = ?, then [fetchone]. *)
Definition fetchone_approved (tid : Z) (conn : Connection) : option Z :=
  row_approved <$> head (filter (fun r => row_id r = tid) (rows (txn conn))).

(** UPDATE testimonials SET approved = ? WHERE id = ?. *)
Definition set_approved (new_val tid : Z) (r : Row) : Row :=
  if decide (row_id r = tid)
  then mkRow (row_id r) (row_author r) (row_text r) new_val (row_created_at r)
  else r.

Definition execute_update (new_val tid : Z) (conn : Connection) : Connection :=
  let t := txn conn in
  mkConnection (disk conn) (mkTable (set_approved new_val tid <$> rows t) (seq t)).

(** ORDER BY created_at DESC: [r1] may come before [r2] when the TEXT of
    [r2] is not above that of [r1] (bytewise comparison).  SQLite leaves
    the order of rows with equal keys open; the sort used here is one
    admissible choice and no statement below depends on it. *)
Definition created_desc (r1 r2 : Row) : Prop :=
  String.leb (row_created_at r2) (row_created_at r1) = true.

#[global] Instance created_desc_dec : RelDecision created_desc.
Proof. intros r1 r2. unfold created_desc. apply _. Defined.

(** SELECT id, author, text, approved, created_at FROM testimonials
    WHERE approved=1 ORDER BY created_at DESC, then [fetchall]. *)
Definition fetchall_approved (conn : Connection) : list Row :=
  merge_sort created_desc (filter (fun r => row_approved r = 1) (rows (txn conn))).

(** Python's [bool] on an integer. *)
Definition bool_of_int (z : Z) : bool := negb (z =? 0)%Z.

(** The dict [get_testimonials] builds for a fetched row. *)
Definition testimonial_dict (r : Row) : dict :=
  [("id", JInt (row_id r));
   ("author", JStr (row_author r));
   ("text", JStr (row_text r));
   ("approved", JBool (bool_of_int (row_approved r)));
   ("created_at", JStr (row_created_at r))].

Definition get_testimonials (db : Table) : outcome (list dict) * Table :=
  let conn := connect db in
  let rs := fetchall_approved conn in
  let db' := close conn in
  (Returns (testimonial_dict <$> rs), db').

Record TestimonialIn : Type := mkTestimonialIn {
  author : string;
  text : string
}.

(** [utcnow] is the reading of [datetime.utcnow().isoformat()] when the
    request is served. *)
Definition submit_testimonial (utcnow : string) (payload : TestimonialIn)
    (db : Table) : outcome dict * Table :=
  let conn := connect db in
  let now := utcnow in
  let '(conn, tid) := execute_insert (author payload) (text payload) now conn in
  let conn := commit conn in
  let db' := close conn in
  (Returns [("id", JInt tid);
            ("author", JStr (author payload));
            ("text", JStr (text payload));
            ("approved", JBool false)],
   db').

(** [0 if row[0] == 1 else 1]. *)
Definition flip (a : Z) : Z := if decide (a = 1) then 0 else 1.

(** The integers [sqlite3] can bind as a statement parameter: those of
    the signed 64-bit range.  [testimonial_id] is a Python int of any
    size. *)
Definition fits_int64 (z : Z) : Prop :=
  -9223372036854775808 ≤ z ≤ 9223372036854775807.

#[global] Instance fits_int64_dec z : Decision (fits_int64 z).
Proof. unfold fits_int64. apply _. Defined.

(** When the id does not fit, the first [cur.execute] raises while binding
    it: nothing has been read or written, no handler catches the error,
    and the database file is what it was. *)
Definition toggle_testimonial_approval (testimonial_id : Z) (db : Table)
    : outcome dict * Table :=
  let conn := connect db in
  if decide (fits_int64 testimonial_id) then
    match fetchone_approved testimonial_id conn with
    | None =>
        let db' := close conn in
        (Raises (HTTPException 404 "Testimonial not found"), db')
    | Some a =>
        let new_val := flip a in
        let conn := execute_update new_val testimonial_id conn in
        let conn := commit conn in
        let db' := close conn in
        (Returns [("id", JInt testimonial_id);
                  ("approved", JBool (bool_of_int new_val))],
         db')
    end
  else (Raises OverflowError, disk conn).

(** The testimonial routes and a run of the server over them. *)
Inductive request : Type :=
| Submit (utcnow : string) (payload : TestimonialIn)
| Toggle (testimonial_id : Z)
| ListApproved.

Definition handle (r : request) (db : Table) : Table :=
  match r with
  | Submit now p => (submit_testimonial now p db).2
  | Toggle tid => (toggle_testimonial_approval tid db).2
  | ListApproved => (get_testimonials db).2
  end.

Definition serve (rs : list request) (db : Table) : Table :=
  foldl (fun d r => handle r d) db rs.

(** What the schema and the handlers maintain: ids are a primary key and
    the approval column holds 0 or 1. *)
Definition well_formed (db : Table) : Prop :=
  NoDup (row_id <$> rows db) ∧ Forall (fun r => row_approved r = 0 ∨ row_approved r = 1) (rows db).

(** The ids, in listing order, of a [get_testimonials] answer. *)
Definition listed_ids (o : outcome (list dict)) : list (option json) :=
  match o with
  | Returns ds => dict_get "id" <$> ds
  | Raises _ => []
  end.

(** The testimonials a [get_testimonials] call answers with. *)
Definition listing (db : Table) : list dict :=
  match (get_testimonials db).1 with
  | Returns ds => ds
  | Raises _ => []
  end.



End Testimonials.

(** Settles a decidable statement about concrete data by evaluating its
    decision procedure. *)
Ltac by_evaluation := apply (bool_decide_unpack _); vm_compute; exact I.

(** * The handlers on concrete requests *)

Example signup_chess_club :
  (Roster.signup_for_activity "Chess Club" "zoe@mergington.edu" Roster.activities).1
  = Returns [("message", JStr "Signed up zoe@mergington.edu for Chess Club")].
Proof. vm_compute. reflexivity. Qed.

Example signup_chess_club_again :
  (Roster.signup_for_activity "Chess Club" "daniel@mergington.edu" Roster.activities).1
  = Raises (HTTPException 400 "Student is already signed up").
Proof. vm_compute. reflexivity. Qed.

Example unregister_unknown_activity :
  Roster.unregister_from_activity "Knitting" "zoe@mergington.edu" Roster.activities
  = (Raises (HTTPException 404 "Activity not found"), Roster.activities).
Proof. vm_compute. reflexivity. Qed.

Example unregister_first_of_two :
  Roster.participants_of
    (Roster.unregister_from_activity "Gym Class" "john@mergington.edu"
       Roster.activities).2 "Gym Class"
  = ["olivia@mergington.edu"].
Proof. vm_compute. reflexivity. Qed.

Example three_submissions_one_approved :
  let db := Testimonials.serve
              [Testimonials.Submit "2024-05-01T10:00:00"
                 (Testimonials.mkTestimonialIn "Ann" "a");
               Testimonials.Submit "2024-05-02T09:30:00.120000"
                 (Testimonials.mkTestimonialIn "Bob" "b");
               Testimonials.Submit "2024-05-03T18:45:10"
                 (Testimonials.mkTestimonialIn "Cy" "c");
               Testimonials.Toggle 3; Testimonials.Toggle 1; Testimonials.Toggle 2;
               Testimonials.Toggle 2]
              (Testimonials.init_db None) in
  (Testimonials.get_testimonials db).1
  = Returns [[("id", JInt 3); ("author", JStr "Cy"); ("text", JStr "c");
              ("approved", JBool true); ("created_at", JStr "2024-05-03T18:45:10")];
             [("id", JInt 1); ("author", JStr "Ann"); ("text", JStr "a");
              ("approved", JBool true); ("created_at", JStr "2024-05-01T10:00:00")]].
Proof. vm_compute. reflexivity. Qed.

Example toggle_unknown_id :
  Testimonials.toggle_testimonial_approval 9999 (Testimonials.init_db None)
  = (Raises (HTTPException 404 "Testimonial not found"), Testimonials.init_db None).
Proof. vm_compute. reflexivity. Qed.

(** * Properties of the activity roster *)

Section roster_facts.
Import Roster.
Implicit Types (acts : gmap string Activity) (a : Activity).
Implicit Types (email activity_name : string) (ps : list string).

(** ** [list.remove] *)

Lemma list_remove_None email ps : list_remove email ps = None ↔ email ∉ ps.
Proof.
  induction ps as [|p ps IH]; simpl.
  - split; [intros _; apply not_elem_of_nil | done].
  - rewrite not_elem_of_cons. case_decide as Hp.
    + split; [done | intros [Hne _]; by subst].
    + rewrite fmap_None, IH. split; [intros Hps; split; congruence | by intros [_ Hps]].
Qed.

Lemma list_remove_Some email ps ps' :
  list_remove email ps = Some ps' ↔
  ∃ l1 l2, ps = l1 ++ (email :: l2) ∧ (email ∉ l1) ∧ ps' = l1 ++ l2.
Proof.
  revert ps'. induction ps as [|p ps IH]; intros ps'; simpl.
  - split; [done | intros ([|??] & ? & ? & _); done].
  - case_decide as Hp.
    + subst p. split.
      * intros [= <-]. exists [], ps. split_and!; [done | apply not_elem_of_nil | done].
      * intros ([|q l1] & l2 & Heq & Hnot & ->); simplify_eq/=; [done |].
        exfalso. apply Hnot. left.
    + rewrite fmap_Some. split.
      * intros (l & (l1 & l2 & -> & Hnot & ->)%IH & ->).
        exists (p :: l1), l2. split_and!; [done | | done].
        rewrite not_elem_of_cons. by split; [intros ->|].
      * intros ([|q l1] & l2 & Heq & Hnot & ->); simplify_eq/=.
        apply not_elem_of_cons in Hnot as [_ Hnot].
        exists (l1 ++ l2). split; [|done]. apply IH. by exists l1, l2.
Qed.

Lemma list_remove_elem_of email ps :
  email ∈ ps → ∃ l1 l2, ps = l1 ++ (email :: l2) ∧ (email ∉ l1) ∧
                        list_remove email ps = Some (l1 ++ l2).
Proof.
  intros Hin. destruct (list_remove email ps) as [ps'|] eqn:Hrm.
  - apply list_remove_Some in Hrm as (l1 & l2 & -> & ? & ->). by exists l1, l2.
  - by apply list_remove_None in Hrm.
Qed.

Lemma list_remove_NoDup email ps ps' :
  NoDup ps → list_remove email ps = Some ps' → NoDup ps' ∧ email ∉ ps'.
Proof.
  intros Hnd (l1 & l2 & -> & Hnot & ->)%list_remove_Some.
  apply NoDup_app in Hnd as (Hl1 & Hdisj & [Hl2' Hl2]%NoDup_cons). split.
  - apply NoDup_app. split_and!; [done | | done].
    intros x Hx Hx2. apply (Hdisj x Hx). by right.
  - rewrite not_elem_of_app. done.
Qed.

Lemma list_remove_snoc email ps :
  email ∉ ps → list_remove email (ps ++ [email]) = Some ps.
Proof.
  intros Hnot. apply list_remove_Some. exists ps, [].
  by rewrite app_nil_r.
Qed.

(** ** The handlers, case by case *)

Lemma signup_not_found activity_name email acts :
  acts !! activity_name = None →
  signup_for_activity activity_name email acts = (Raises ActivityNotFound, acts).
Proof. intros H. unfold signup_for_activity. by rewrite H. Qed.

Lemma signup_already activity_name email acts a :
  acts !! activity_name = Some a → email ∈ participants a →
  signup_for_activity activity_name email acts = (Raises AlreadyEnrolled, acts).
Proof. intros H Hin. unfold signup_for_activity. rewrite H. by rewrite decide_True. Qed.

Lemma signup_ok activity_name email acts a :
  acts !! activity_name = Some a → email ∉ participants a →
  signup_for_activity activity_name email acts =
    (Returns [("message", JStr ("Signed up " +:+ email +:+ " for " +:+ activity_name))],
     <[activity_name := set_participants a (participants a ++ [email])]> acts).
Proof. intros H Hin. unfold signup_for_activity. rewrite H. by rewrite decide_False. Qed.

Lemma unregister_not_found activity_name email acts :
  acts !! activity_name = None →
  unregister_from_activity activity_name email acts = (Raises ActivityNotFound, acts).
Proof. intros H. unfold unregister_from_activity. by rewrite H. Qed.

Lemma unregister_not_enrolled activity_name email acts a :
  acts !! activity_name = Some a → email ∉ participants a →
  unregister_from_activity activity_name email acts = (Raises NotEnrolled, acts).
Proof. intros H Hin. unfold unregister_from_activity. rewrite H. by rewrite decide_True. Qed.

Lemma unregister_ok activity_name email acts a :
  acts !! activity_name = Some a → email ∈ participants a →
  ∃ l1 l2, participants a = l1 ++ (email :: l2) ∧ (email ∉ l1) ∧
    unregister_from_activity activity_name email acts =
      (Returns [("message",
                 JStr ("Unregistered " +:+ email +:+ " from " +:+ activity_name))],
       <[activity_name := set_participants a (l1 ++ l2)]> acts).
Proof.
  intros H Hin. unfold unregister_from_activity. rewrite H.
  rewrite decide_False by (intros Hn; by apply Hn).
  destruct (list_remove_elem_of _ _ Hin) as (l1 & l2 & Heq & Hnot & ->).
  by exists l1, l2.
Qed.

Lemma participants_of_insert acts activity_name a :
  participants_of (<[activity_name := a]> acts) activity_name = participants a.
Proof. unfold participants_of. by rewrite lookup_insert_eq. Qed.

Lemma participants_of_Some acts activity_name a :
  acts !! activity_name = Some a → participants_of acts activity_name = participants a.
Proof. unfold participants_of. by intros ->. Qed.

End roster_facts.

Section roster_runs.
Import Roster.
Implicit Types (acts : gmap string Activity) (a : Activity).
Implicit Types (email activity_name : string) (ps : list string).

(** ** Frame: what a request leaves alone *)

Lemma signup_other activity_name email acts n :
  n ≠ activity_name →
  (signup_for_activity activity_name email acts).2 !! n = acts !! n.
Proof.
  intros Hne. unfold signup_for_activity.
  destruct (acts !! activity_name) as [a|]; [|done].
  case_decide; [done|]. simpl. by rewrite lookup_insert_ne.
Qed.

Lemma unregister_other activity_name email acts n :
  n ≠ activity_name →
  (unregister_from_activity activity_name email acts).2 !! n = acts !! n.
Proof.
  intros Hne. unfold unregister_from_activity.
  destruct (acts !! activity_name) as [a|]; [|done].
  case_decide; [done|].
  destruct (list_remove _ _); [|done]. simpl. by rewrite lookup_insert_ne.
Qed.

(** Only the participant list of the addressed activity can change. *)
Lemma signup_same activity_name email acts a :
  acts !! activity_name = Some a →
  (signup_for_activity activity_name email acts).2 !! activity_name =
    Some (set_participants a
            (if decide (email ∈ participants a) then participants a
             else participants a ++ [email])).
Proof.
  intros H. unfold signup_for_activity. rewrite H.
  case_decide; simpl; [by destruct a | by rewrite lookup_insert_eq].
Qed.

Lemma unregister_same activity_name email acts a :
  acts !! activity_name = Some a →
  (unregister_from_activity activity_name email acts).2 !! activity_name =
    Some (set_participants a
            (default (participants a) (list_remove email (participants a)))).
Proof.
  intros H. unfold unregister_from_activity. rewrite H.
  case_decide as Hin; simpl.
  - apply list_remove_None in Hin as ->. by destruct a.
  - destruct (list_remove _ _) eqn:Hrm; simpl; [by rewrite lookup_insert_eq|].
    by destruct a.
Qed.

(** ** Uniqueness of participants is an invariant *)

Lemma activities_unique : unique_participants activities.
Proof.
  assert (map_Forall (λ _ a, NoDup (participants a)) activities) as H
    by by_evaluation.
  intros n a Hn. exact (H n a Hn).
Qed.

Lemma signup_unique activity_name email acts :
  unique_participants acts →
  unique_participants (signup_for_activity activity_name email acts).2.
Proof.
  intros Hu n a' Hn. destruct (decide (n = activity_name)) as [->|Hne].
  - destruct (acts !! activity_name) as [a|] eqn:Ha.
    + rewrite (signup_same _ _ _ _ Ha) in Hn. simplify_eq/=.
      case_decide as Hin; [by eapply Hu|].
      apply NoDup_app. split_and!; [by eapply Hu | | apply NoDup_singleton].
      intros x Hx ->%list_elem_of_singleton. done.
    + rewrite signup_not_found in Hn by done. simpl in Hn. congruence.
  - rewrite signup_other in Hn by done. by eapply Hu.
Qed.

Lemma unregister_unique activity_name email acts :
  unique_participants acts →
  unique_participants (unregister_from_activity activity_name email acts).2.
Proof.
  intros Hu n a' Hn. destruct (decide (n = activity_name)) as [->|Hne].
  - destruct (acts !! activity_name) as [a|] eqn:Ha.
    + rewrite (unregister_same _ _ _ _ Ha) in Hn. simplify_eq/=.
      destruct (list_remove _ _) eqn:Hrm; simpl; [|by eapply Hu].
      eapply list_remove_NoDup; [by eapply Hu | done].
    + rewrite unregister_not_found in Hn by done. simpl in Hn. congruence.
  - rewrite unregister_other in Hn by done. by eapply Hu.
Qed.

Lemma handle_unique (r : Roster.request) acts :
  unique_participants acts → unique_participants (Roster.handle r acts).2.
Proof. destruct r; [apply signup_unique | apply unregister_unique]. Qed.

Lemma serve_unique (rs : list Roster.request) acts :
  unique_participants acts → unique_participants (Roster.serve rs acts).
Proof.
  revert acts. induction rs as [|r rs IH]; intros acts Hu; [done|].
  apply IH. by apply handle_unique.
Qed.

Lemma filter_eq_absent email ps : email ∉ ps → filter (λ p, p = email) ps = [].
Proof.
  induction ps as [|p ps IH]; [done|].
  intros [Hne Hps]%not_elem_of_cons.
  rewrite filter_cons_False by congruence. by apply IH.
Qed.

Lemma count_snoc_absent email ps :
  email ∉ ps → length (filter (λ p, p = email) (ps ++ [email])) = 1%nat.
Proof.
  intros Hps. rewrite filter_app, (filter_eq_absent _ _ Hps). simpl.
  by rewrite filter_cons_True.
Qed.

(** Signing up, unregistering and signing up again ends with the email at
    the back of a list that holds it nowhere else. *)
Lemma signup_unregister_signup activity_name email acts a :
  acts !! activity_name = Some a → NoDup (participants a) →
  ∃ ps, (email ∉ ps) ∧
    participants_of
      (Roster.serve [Signup activity_name email; Unregister activity_name email;
                     Signup activity_name email] acts) activity_name
    = ps ++ [email].
Proof.
  intros Ha Hnd. unfold Roster.serve. simpl.
  pose proof (signup_same activity_name email acts a Ha) as H1.
  set (acts1 := (signup_for_activity activity_name email acts).2) in *.
  pose proof (unregister_same activity_name email acts1 _ H1) as H2.
  set (acts2 := (unregister_from_activity activity_name email acts1).2) in *.
  pose proof (signup_same activity_name email acts2 _ H2) as H3.
  rewrite (participants_of_Some _ _ _ H3). simpl. clear H1 H2 H3 acts1 acts2.
  destruct (decide (email ∈ participants a)) as [Hin|Hout].
  - destruct (list_remove_elem_of _ _ Hin) as (l1 & l2 & Heq & Hl1 & Hrm).
    rewrite Hrm. simpl.
    destruct (list_remove_NoDup _ _ _ Hnd Hrm) as [_ Hgone].
    rewrite decide_False by done. by exists (l1 ++ l2).
  - rewrite list_remove_snoc by done. simpl.
    rewrite decide_False by done. by exists (participants a).
Qed.

End roster_runs.

(** * The roster claims *)

Section roster_claims.
Import Roster.
Implicit Types (acts : gmap string Activity) (a : Activity).
Implicit Types (email activity_name : string).

(** C1. [signup_for_activity] raises the 404 "Activity not found" when the
    name is not a key of the roster, raises the 400 "Student is already
    signed up" when the email is in that activity's participant list, and
    otherwise returns after appending the email at the end of the list.
    After such a successful call a second call with the same arguments
    raises the 400 and leaves the roster, hence the participant count, as
    the first call left it. *)
Theorem signup_for_activity_spec acts activity_name email :
  (acts !! activity_name = None →
     signup_for_activity activity_name email acts = (Raises ActivityNotFound, acts)) ∧
  (∀ a, acts !! activity_name = Some a → email ∈ participants a →
     signup_for_activity activity_name email acts = (Raises AlreadyEnrolled, acts)) ∧
  (∀ a, acts !! activity_name = Some a → email ∉ participants a →
     ∃ msg acts1,
       signup_for_activity activity_name email acts = (Returns msg, acts1) ∧
       acts1 = <[activity_name :=
                   set_participants a (participants a ++ [email])]> acts ∧
       participants_of acts1 activity_name = participants a ++ [email] ∧
       signup_for_activity activity_name email acts1 = (Raises AlreadyEnrolled, acts1) ∧
       length (participants_of (signup_for_activity activity_name email acts1).2
                 activity_name)
       = length (participants_of acts1 activity_name)).
Proof.
  split_and!.
  - apply signup_not_found.
  - apply signup_already.
  - intros a Ha Hout. eexists _, _. split; [by apply signup_ok|].
    split; [done|]. split; [apply participants_of_insert|].
    assert (signup_for_activity activity_name email
              (<[activity_name := set_participants a (participants a ++ [email])]> acts)
            = (Raises AlreadyEnrolled,
               <[activity_name := set_participants a (participants a ++ [email])]> acts))
      as Hagain.
    { eapply signup_already; [apply lookup_insert_eq|].
      simpl. apply elem_of_app. right. apply list_elem_of_singleton. done. }
    by rewrite Hagain.
Qed.

Lemma signup_for_activity_spec_witness :
  ∃ msg acts1,
    signup_for_activity "Chess Club" "zoe@mergington.edu" activities
      = (Returns msg, acts1) ∧
    participants_of acts1 "Chess Club"
      = ["michael@mergington.edu"; "daniel@mergington.edu"; "zoe@mergington.edu"] ∧
    signup_for_activity "Chess Club" "zoe@mergington.edu" acts1
      = (Raises AlreadyEnrolled, acts1).
Proof.
  destruct (signup_for_activity_spec activities "Chess Club" "zoe@mergington.edu")
    as (_ & _ & H).
  destruct (H (mkActivity "Learn strategies and compete in chess tournaments"
                 "Fridays, 3:30 PM - 5:00 PM" 12
                 ["michael@mergington.edu"; "daniel@mergington.edu"]))
    as (msg & acts1 & H1 & _ & H2 & H3 & _).
  - vm_compute. reflexivity.
  - by_evaluation.
  - exists msg, acts1. split; [exact H1|]. split; [exact H2 | exact H3].
Defined.

(** C2. [unregister_from_activity] raises the 404 "Activity not found" when
    the name is not a key of the roster, raises the 400 "Student is not
    signed up for this activity" when the email is not in the participant
    list (the roster stays as it was), and otherwise returns after taking
    the first entry equal to the email out of the list. *)
Theorem unregister_from_activity_spec acts activity_name email :
  (acts !! activity_name = None →
     unregister_from_activity activity_name email acts
       = (Raises ActivityNotFound, acts)) ∧
  (∀ a, acts !! activity_name = Some a → email ∉ participants a →
     unregister_from_activity activity_name email acts = (Raises NotEnrolled, acts)) ∧
  (∀ a, acts !! activity_name = Some a → email ∈ participants a →
     ∃ msg l1 l2,
       participants a = l1 ++ (email :: l2) ∧ (email ∉ l1) ∧
       unregister_from_activity activity_name email acts
         = (Returns msg, <[activity_name := set_participants a (l1 ++ l2)]> acts)).
Proof.
  split_and!.
  - apply unregister_not_found.
  - apply unregister_not_enrolled.
  - intros a Ha Hin.
    destruct (unregister_ok _ _ _ _ Ha Hin) as (l1 & l2 & Heq & Hl1 & Hrun).
    by eexists _, l1, l2.
Qed.

Lemma unregister_from_activity_spec_witness :
  ∃ msg,
    unregister_from_activity "Chess Club" "daniel@mergington.edu" activities
    = (Returns msg,
       <["Chess Club" := mkActivity
           "Learn strategies and compete in chess tournaments"
           "Fridays, 3:30 PM - 5:00 PM" 12 ["michael@mergington.edu"]]> activities).
Proof.
  destruct (unregister_from_activity_spec activities "Chess Club" "daniel@mergington.edu")
    as (_ & _ & H).
  destruct (H (mkActivity "Learn strategies and compete in chess tournaments"
                 "Fridays, 3:30 PM - 5:00 PM" 12
                 ["michael@mergington.edu"; "daniel@mergington.edu"]))
    as (msg & l1 & l2 & Heq & Hl1 & Hrun).
  - vm_compute. reflexivity.
  - by_evaluation.
  - exists msg. rewrite Hrun. simpl in Heq.
    destruct l1 as [|p1 [|p2 l1]]; simplify_eq/=; reflexivity.
Defined.

(** C7. Whenever the activity exists and the email is not yet in its list,
    [signup_for_activity] returns and appends the email; [max_participants]
    is never consulted, so the call also goes through when the list has
    already reached or passed that number, and the list of a seeded
    activity does grow beyond it (the Math Club, capacity 10, holds 11
    after nine more signups). *)
Theorem signup_ignores_capacity :
  (∀ acts activity_name email a,
     acts !! activity_name = Some a → email ∉ participants a →
     ∃ msg acts1,
       signup_for_activity activity_name email acts = (Returns msg, acts1) ∧
       participants_of acts1 activity_name = participants a ++ [email] ∧
       (max_participants a ≤ Z.of_nat (length (participants a)) →
        max_participants a
          < Z.of_nat (length (participants_of acts1 activity_name)))) ∧
  (∃ a, Roster.serve math_club_rush activities !! "Math Club" = Some a ∧
        max_participants a = 10 ∧ length (participants a) = 11%nat).
Proof.
  split.
  - intros acts activity_name email a Ha Hout. eexists _, _.
    split; [by apply signup_ok|]. rewrite participants_of_insert. simpl.
    split; [done|]. rewrite length_app. simpl. lia.
  - eexists. split; [vm_compute; reflexivity|]. split; reflexivity.
Qed.

Lemma signup_ignores_capacity_witness :
  ∃ msg acts1,
    signup_for_activity "Math Club" "late@mergington.edu"
      (Roster.serve math_club_rush activities) = (Returns msg, acts1) ∧
    length (participants_of acts1 "Math Club") = 12%nat.
Proof.
  destruct signup_ignores_capacity as [H _].
  destruct (H (Roster.serve math_club_rush activities) "Math Club"
              "late@mergington.edu"
              (mkActivity
                 "Solve challenging problems and participate in math competitions"
                 "Tuesdays, 3:30 PM - 4:30 PM" 10
                 (["james@mergington.edu"; "benjamin@mergington.edu"] ++
                  ["s1@mergington.edu"; "s2@mergington.edu"; "s3@mergington.edu";
                   "s4@mergington.edu"; "s5@mergington.edu"; "s6@mergington.edu";
                   "s7@mergington.edu"; "s8@mergington.edu"; "s9@mergington.edu"])))
    as (msg & acts1 & H1 & H2 & _).
  - vm_compute. reflexivity.
  - by_evaluation.
  - exists msg, acts1. split; [exact H1|]. rewrite H2. reflexivity.
Defined.

(** C9. The seeded participant lists hold no email twice; every signup and
    every unregister request keeps it so, hence so does every sequence of
    them run from the seed.  From any such roster, signing an email up for
    an existing activity, unregistering it and signing it up again leaves
    that email exactly once in the activity's list. *)
Theorem participants_stay_unique :
  unique_participants activities ∧
  (∀ acts (r : Roster.request),
     unique_participants acts → unique_participants (Roster.handle r acts).2) ∧
  (∀ rs : list Roster.request, unique_participants (Roster.serve rs activities)) ∧
  (∀ acts activity_name email,
     unique_participants acts → is_Some (acts !! activity_name) →
     length (filter (λ p, p = email)
               (participants_of
                  (Roster.serve [Signup activity_name email;
                                 Unregister activity_name email;
                                 Signup activity_name email] acts)
                  activity_name)) = 1%nat).
Proof.
  split_and!.
  - apply activities_unique.
  - intros acts r. apply handle_unique.
  - intros rs. apply serve_unique, activities_unique.
  - intros acts activity_name email Hu [a Ha].
    destruct (signup_unregister_signup activity_name email acts a Ha (Hu _ _ Ha))
      as (ps & Hps & ->).
    by apply count_snoc_absent.
Qed.

Lemma participants_stay_unique_witness :
  length (filter (λ p, p = "emma@mergington.edu")
            (participants_of
               (Roster.serve [Signup "Programming Class" "emma@mergington.edu";
                              Unregister "Programming Class" "emma@mergington.edu";
                              Signup "Programming Class" "emma@mergington.edu"]
                  (Roster.serve math_club_rush activities))
               "Programming Class")) = 1%nat.
Proof.
  destruct participants_stay_unique as (_ & _ & Hreach & Hcycle).
  apply Hcycle.
  - apply Hreach.
  - by_evaluation.
Defined.

(** C10. Membership is checked per activity.  For two different activities
    A and B of the roster, an email that is in A's list and not in B's can
    sign up for B; and a signup or unregister request that returns on A
    leaves every other entry of the roster, B's in particular, exactly as
    it was, and leaves A's description, schedule and max_participants as
    they were. *)
Theorem membership_is_per_activity acts (A B email : string) a b :
  A ≠ B → acts !! A = Some a → acts !! B = Some b →
  (email ∈ participants a → email ∉ participants b →
     ∃ msg acts1,
       signup_for_activity B email acts = (Returns msg, acts1) ∧
       participants_of acts1 B = participants b ++ [email]) ∧
  (∀ msg acts1,
     signup_for_activity A email acts = (Returns msg, acts1) ∨
     unregister_from_activity A email acts = (Returns msg, acts1) →
     acts1 !! B = Some b ∧
     (∀ n, n ≠ A → acts1 !! n = acts !! n) ∧
     ∃ a1, acts1 !! A = Some a1 ∧
           description a1 = description a ∧
           schedule a1 = schedule a ∧
           max_participants a1 = max_participants a).
Proof.
  intros HAB Ha Hb. split.
  - intros _ Hout. eexists _, _. split; [by apply signup_ok|].
    apply participants_of_insert.
  - intros msg acts1 Hrun.
    assert (∀ n, n ≠ A → acts1 !! n = acts !! n) as Hframe.
    { intros n Hn. destruct Hrun as [Hrun|Hrun].
      - rewrite <-(signup_other A email acts n Hn). by rewrite Hrun.
      - rewrite <-(unregister_other A email acts n Hn). by rewrite Hrun. }
    split; [by rewrite Hframe|]. split; [done|].
    destruct Hrun as [Hrun|Hrun].
    + pose proof (signup_same A email acts a Ha) as Hs. rewrite Hrun in Hs.
      eexists. split; [exact Hs|]. done.
    + pose proof (unregister_same A email acts a Ha) as Hs. rewrite Hrun in Hs.
      eexists. split; [exact Hs|]. done.
Qed.

Lemma membership_is_per_activity_witness :
  ∃ msg acts1,
    signup_for_activity "Math Club" "michael@mergington.edu" activities
      = (Returns msg, acts1) ∧
    participants_of acts1 "Math Club"
      = ["james@mergington.edu"; "benjamin@mergington.edu";
         "michael@mergington.edu"].
Proof.
  refine (proj1 (membership_is_per_activity activities "Chess Club" "Math Club"
            "michael@mergington.edu"
            (mkActivity "Learn strategies and compete in chess tournaments"
               "Fridays, 3:30 PM - 5:00 PM" 12
               ["michael@mergington.edu"; "daniel@mergington.edu"])
            (mkActivity
               "Solve challenging problems and participate in math competitions"
               "Tuesdays, 3:30 PM - 4:30 PM" 10
               ["james@mergington.edu"; "benjamin@mergington.edu"])
            _ _ _) _ _).
  - discriminate.
  - vm_compute. reflexivity.
  - vm_compute. reflexivity.
  - by_evaluation.
  - by_evaluation.
Defined.

End roster_claims.

(** * Properties of the testimonial store *)

Section created_at_order.

(** Bytewise comparison of TEXT values is a total preorder. *)
Lemma ascii_compare_Lt_trans (a b c : ascii) :
  Ascii.compare a b = Lt → Ascii.compare b c = Lt → Ascii.compare a c = Lt.
Proof.
  unfold Ascii.compare. rewrite !N.compare_lt_iff. apply N.lt_trans.
Qed.

Lemma string_compare_not_Gt_trans (s1 s2 s3 : string) :
  String.compare s1 s2 ≠ Gt → String.compare s2 s3 ≠ Gt →
  String.compare s1 s3 ≠ Gt.
Proof.
  revert s2 s3. induction s1 as [|a s1 IH]; intros [|b s2] [|c s3]; simpl; try done.
  destruct (Ascii.compare a b) eqn:Hab; [| |done].
  - apply Ascii.compare_eq_iff in Hab as ->.
    destruct (Ascii.compare b c) eqn:Hbc; [apply IH | done | done].
  - destruct (Ascii.compare b c) eqn:Hbc; [| |done].
    + apply Ascii.compare_eq_iff in Hbc as <-. by rewrite Hab.
    + by rewrite (ascii_compare_Lt_trans _ _ _ Hab Hbc).
Qed.

Lemma string_leb_trans (s1 s2 s3 : string) :
  String.leb s1 s2 = true → String.leb s2 s3 = true → String.leb s1 s3 = true.
Proof.
  unfold String.leb. intros H12 H23.
  pose proof (string_compare_not_Gt_trans s1 s2 s3) as H.
  destruct (String.compare s1 s2), (String.compare s2 s3),
    (String.compare s1 s3); try done; exfalso; by apply H.
Qed.

End created_at_order.

(** Hence so is "may come before" under ORDER BY created_at DESC. *)
#[global] Instance created_desc_total : Total Testimonials.created_desc.
Proof.
  intros r1 r2. unfold Testimonials.created_desc.
  destruct (String.leb_total (Testimonials.row_created_at r1)
              (Testimonials.row_created_at r2)); auto.
Qed.

#[global] Instance created_desc_trans : Transitive Testimonials.created_desc.
Proof.
  intros r1 r2 r3. unfold Testimonials.created_desc. intros H12 H23.
  by eapply string_leb_trans.
Qed.

Section store_facts.
Import Testimonials.
Implicit Types (db : Table) (conn : Connection) (r : Row) (rs : list Row).
Implicit Types (tid : Z).

(** ** AUTOINCREMENT hands out an id above every id in the table *)

Lemma max_rowid_ge rs r : r ∈ rs → row_id r ≤ max_rowid rs.
Proof.
  unfold max_rowid. induction rs as [|r0 rs IH].
  - by intros ?%elem_of_nil.
  - rewrite fmap_cons. simpl. intros [->|Hin]%elem_of_cons.
    + apply Z.le_max_l.
    + etrans; [exact (IH Hin) | apply Z.le_max_r].
Qed.

Lemma next_rowid_fresh db :
  seq db < next_rowid db ∧ (∀ r, r ∈ rows db → row_id r < next_rowid db) ∧
  next_rowid db ∉ row_id <$> rows db.
Proof.
  unfold next_rowid. split; [lia|].
  assert (∀ r, r ∈ rows db → row_id r < Z.max (seq db) (max_rowid (rows db)) + 1)
    as Hlt by (intros r Hr%max_rowid_ge; lia).
  split; [done|].
  intros (r & Hid & Hr%Hlt)%list_elem_of_fmap. lia.
Qed.

(** ** SELECT approved ... WHERE id = ? *)

Lemma fetchone_approved_None tid conn :
  fetchone_approved tid conn = None ↔ tid ∉ row_id <$> rows (txn conn).
Proof.
  unfold fetchone_approved. rewrite fmap_None, head_None. split.
  - intros Hnil (r & -> & Hr)%list_elem_of_fmap.
    by eapply (filter_nil_not_elem_of _ _ r Hnil).
  - intros Hnot. destruct (filter _ _) as [|r l] eqn:Hf; [done|].
    exfalso. apply Hnot.
    assert (r ∈ filter (λ r, row_id r = tid) (rows (txn conn))) as Hr
      by (rewrite Hf; left).
    apply list_elem_of_filter in Hr as [<- Hr]. by apply list_elem_of_fmap_2.
Qed.

Lemma fetchone_approved_elem_of r conn :
  NoDup (row_id <$> rows (txn conn)) → r ∈ rows (txn conn) →
  fetchone_approved (row_id r) conn = Some (row_approved r).
Proof.
  unfold fetchone_approved. generalize (rows (txn conn)). intros rs.
  induction rs as [|r0 rs IH]; [by intros _ ?%elem_of_nil|].
  rewrite fmap_cons. intros [Hr0 Hnd]%NoDup_cons Hin.
  destruct (decide (row_id r0 = row_id r)) as [Heq|Hne].
  - rewrite filter_cons_True by done. simpl.
    apply elem_of_cons in Hin as [->|Hin]; [done|].
    exfalso. apply Hr0. rewrite Heq. by apply list_elem_of_fmap_2.
  - rewrite filter_cons_False by done.
    apply elem_of_cons in Hin as [->|Hin]; [done|]. by apply IH.
Qed.

(** ** UPDATE ... SET approved = ? WHERE id = ? *)

Lemma set_approved_id v tid r : row_id (set_approved v tid r) = row_id r.
Proof. unfold set_approved. by case_decide. Qed.

Lemma set_approved_ids v tid rs :
  row_id <$> (set_approved v tid <$> rs) = row_id <$> rs.
Proof.
  rewrite <-list_fmap_compose. apply list_fmap_ext.
  intros i r _. apply set_approved_id.
Qed.

Lemma set_approved_absent v tid rs :
  tid ∉ row_id <$> rs → set_approved v tid <$> rs = rs.
Proof.
  intros Hnot. rewrite <-(list_fmap_id rs) at 2. apply list_fmap_ext.
  intros i r Hr%list_elem_of_lookup_2. unfold set_approved.
  case_decide as Hid; [|done]. exfalso. apply Hnot. rewrite <-Hid.
  by apply list_elem_of_fmap_2.
Qed.

(** Writing back the value every row of that id already holds changes
    nothing, whatever was written in between. *)
Lemma set_approved_restore v w tid rs :
  (∀ r, r ∈ rs → row_id r = tid → row_approved r = v) →
  set_approved v tid <$> (set_approved w tid <$> rs) = rs.
Proof.
  intros Hv. rewrite <-list_fmap_compose. rewrite <-(list_fmap_id rs) at 2.
  apply list_fmap_ext. intros i r Hr%list_elem_of_lookup_2. simpl.
  unfold set_approved. destruct (decide (row_id r = tid)) as [Hid|Hid]; simpl.
  - rewrite decide_True by done. rewrite <-(Hv r Hr Hid). by destruct r.
  - by rewrite decide_False.
Qed.

End store_facts.

Section store_handlers.
Import Testimonials.
Implicit Types (db : Table) (r : Row) (rs : list Row) (tid : Z).
Implicit Types (payload : TestimonialIn) (now : string).

Lemma submit_testimonial_unfold now payload db :
  submit_testimonial now payload db =
    (Returns [("id", JInt (next_rowid db));
              ("author", JStr (author payload));
              ("text", JStr (text payload));
              ("approved", JBool false)],
     mkTable (rows db ++ [mkRow (next_rowid db) (author payload) (text payload) 0 now])
       (next_rowid db)).
Proof. reflexivity. Qed.

Lemma toggle_overflow tid db :
  ¬ fits_int64 tid →
  toggle_testimonial_approval tid db = (Raises OverflowError, db).
Proof.
  intros Hbig. unfold toggle_testimonial_approval. by rewrite decide_False.
Qed.

Lemma toggle_not_found tid db :
  fits_int64 tid → tid ∉ row_id <$> rows db →
  toggle_testimonial_approval tid db = (Raises TestimonialNotFound, db).
Proof.
  intros Hfits Hnot. unfold toggle_testimonial_approval.
  rewrite decide_True by done.
  by rewrite (proj2 (fetchone_approved_None tid (connect db)) Hnot).
Qed.

Lemma toggle_found r db :
  fits_int64 (row_id r) → NoDup (row_id <$> rows db) → r ∈ rows db →
  toggle_testimonial_approval (row_id r) db =
    (Returns [("id", JInt (row_id r));
              ("approved", JBool (bool_of_int (flip (row_approved r))))],
     mkTable (set_approved (flip (row_approved r)) (row_id r) <$> rows db) (seq db)).
Proof.
  intros Hfits Hnd Hr. unfold toggle_testimonial_approval.
  rewrite decide_True by done.
  by rewrite (fetchone_approved_elem_of r (connect db) Hnd Hr).
Qed.

Lemma get_testimonials_unfold db :
  get_testimonials db =
    (Returns (testimonial_dict <$>
                merge_sort created_desc (filter (λ r, row_approved r = 1) (rows db))),
     db).
Proof. reflexivity. Qed.

(** On 0 and 1 the written value is the negation of the stored one. *)
Lemma flip_negb a :
  a = 0 ∨ a = 1 →
  bool_of_int (flip a) = negb (bool_of_int a) ∧ (flip a = 0 ∨ flip a = 1) ∧
  flip (flip a) = a.
Proof. intros [->| ->]; unfold flip; simpl; auto. Qed.

(** ** Well-formedness is kept by every handler *)


Lemma submit_well_formed now payload db :
  well_formed db → well_formed (submit_testimonial now payload db).2.
Proof.
  intros [Hnd Hap]. rewrite submit_testimonial_unfold.
  unfold well_formed. cbn [snd rows]. split.
  - rewrite fmap_app. apply NoDup_app. split_and!; [done | | apply NoDup_singleton].
    intros x Hx ->%list_elem_of_singleton.
    by apply (next_rowid_fresh db).
  - apply Forall_app. split; [done|]. apply Forall_singleton. by left.
Qed.

Lemma toggle_well_formed tid db :
  well_formed db → well_formed (toggle_testimonial_approval tid db).2.
Proof.
  intros [Hnd Hap].
  destruct (decide (fits_int64 tid)) as [Hfits|Hbig];
    [|by rewrite toggle_overflow].
  destruct (decide (tid ∈ row_id <$> rows db)) as [Hin|Hout].
  - apply list_elem_of_fmap in Hin as (r & -> & Hr).
    rewrite (toggle_found r db Hfits Hnd Hr). unfold well_formed. cbn [snd rows].
    rewrite Forall_forall in Hap. split.
    + by rewrite set_approved_ids.
    + apply Forall_fmap, Forall_forall. intros r' Hr'. cbn [compose].
      unfold set_approved. case_decide; cbn [row_approved].
      * by apply flip_negb, Hap.
      * by apply Hap.
  - by rewrite toggle_not_found.
Qed.



(** ** What the listing shows *)

Lemma elem_of_fetchall_approved r db :
  r ∈ fetchall_approved (connect db) ↔ r ∈ rows db ∧ row_approved r = 1.
Proof.
  unfold fetchall_approved. rewrite merge_sort_Permutation, list_elem_of_filter.
  simpl. tauto.
Qed.

Lemma listed_ids_get_testimonials tid db :
  Some (JInt tid) ∈ listed_ids (get_testimonials db).1 ↔
  ∃ r, r ∈ rows db ∧ row_id r = tid ∧ row_approved r = 1.
Proof.
  rewrite get_testimonials_unfold. simpl. rewrite <-list_fmap_compose. split.
  - intros (r & Hid & Hr)%list_elem_of_fmap.
    apply (elem_of_fetchall_approved r db) in Hr as [Hr Hap].
    exists r. simpl in Hid. by simplify_eq.
  - intros (r & Hr & <- & Hap). apply list_elem_of_fmap. exists r. split; [done|].
    by apply (elem_of_fetchall_approved r db).
Qed.

(** ** Toggling twice *)

Lemma toggle_twice tid db :
  well_formed db →
  (toggle_testimonial_approval tid (toggle_testimonial_approval tid db).2).2 = db.
Proof.
  intros [Hnd Hap].
  destruct (decide (fits_int64 tid)) as [Hfits|Hbig];
    [|rewrite (toggle_overflow tid db Hbig); cbn [snd];
      by rewrite (toggle_overflow tid db Hbig)].
  destruct (decide (tid ∈ row_id <$> rows db)) as [Hin|Hout].
  - apply list_elem_of_fmap in Hin as (r & -> & Hr).
    rewrite (toggle_found r db Hfits Hnd Hr). cbn [snd].
    set (r1 := set_approved (flip (row_approved r)) (row_id r) r).
    assert (row_id r1 = row_id r) as Hid1 by apply set_approved_id.
    assert (row_approved r1 = flip (row_approved r)) as Hap1
      by (unfold r1, set_approved; by rewrite decide_True).
    rewrite <-Hid1 at 1.
    rewrite (toggle_found r1); cbn [snd rows seq].
    + rewrite Hid1, Hap1. rewrite Forall_forall in Hap.
      destruct (flip_negb (row_approved r) (Hap r Hr)) as (_ & _ & ->).
      rewrite set_approved_restore; [by destruct db|].
      intros r' Hr' Hid'. f_equal.
      apply (NoDup_fmap_1 row_id) in Hnd as Hnd'.
      destruct (list_elem_of_lookup_1 _ _ Hr) as [i Hi].
      destruct (list_elem_of_lookup_1 _ _ Hr') as [j Hj].
      assert (i = j) as ->; [|congruence].
      eapply NoDup_lookup; [exact Hnd| |].
      * by rewrite list_lookup_fmap, Hi.
      * rewrite list_lookup_fmap, Hj. simpl. by rewrite Hid'.
    + by rewrite Hid1.
    + by rewrite set_approved_ids.
    + by apply list_elem_of_fmap_2.
  - rewrite (toggle_not_found tid db Hfits Hout). cbn [snd].
    by rewrite (toggle_not_found tid db Hfits Hout).
Qed.

End store_handlers.

(** * The testimonial claims *)

Section store_claims.
Import Testimonials.
Implicit Types (db : Table) (r : Row) (rs : list Row) (tid : Z).
Implicit Types (payload : TestimonialIn) (now : string).




(** C4. [get_testimonials] always returns, leaves the table alone, and its
    answer is the JSON form of a rearrangement of exactly the rows whose
    approved column is 1 (all of them shown with approved true; in a
    well-formed table these are the rows whose flag is true), in which no
    row comes before one with a greater created_at.  With no approved row
    the answer is empty. *)
Theorem get_testimonials_spec db :
  ∃ rs,
    get_testimonials db = (Returns (testimonial_dict <$> rs), db) ∧
    rs ≡ₚ filter (λ r, row_approved r = 1) (rows db) ∧
    StronglySorted created_desc rs ∧
    (∀ d, d ∈ testimonial_dict <$> rs → dict_get "approved" d = Some (JBool true)) ∧
    (well_formed db →
       ∀ r, r ∈ rows db → (r ∈ rs ↔ bool_of_int (row_approved r) = true)) ∧
    ((∀ r, r ∈ rows db → row_approved r ≠ 1) → rs = []).
Proof.
  exists (merge_sort created_desc (filter (λ r, row_approved r = 1) (rows db))).
  split; [apply get_testimonials_unfold|].
  split; [apply merge_sort_Permutation|].
  split; [apply StronglySorted_merge_sort; apply _|].
  split; [|split].
  - intros d (r & -> & Hr)%list_elem_of_fmap.
    apply (elem_of_fetchall_approved r db) in Hr as [_ Hap].
    unfold testimonial_dict. simpl. by rewrite Hap.
  - intros [_ Hap] r Hr. rewrite Forall_forall in Hap.
    rewrite (elem_of_fetchall_approved r db : r ∈ merge_sort _ _ ↔ _).
    destruct (Hap r Hr) as [H0|H1]; rewrite ?H0, ?H1; simpl; [|tauto].
    split; [intros [_ ?]; done | done].
  - intros Hnone. apply Permutation_nil_r.
    rewrite merge_sort_Permutation.
    destruct (filter _ _) as [|r l] eqn:Hf; [done|]. exfalso.
    assert (r ∈ filter (λ r, row_approved r = 1) (rows db)) as Hr
      by (rewrite Hf; left).
    apply list_elem_of_filter in Hr as [Hap Hr]. by apply (Hnone r).
Qed.

Lemma get_testimonials_spec_witness :
  ∃ rs,
    get_testimonials
      (mkTable [mkRow 1 "Ann" "a" 1 "2024-05-01T10:00:00";
                mkRow 2 "Bob" "b" 0 "2024-05-02T10:00:00";
                mkRow 3 "Cy" "c" 1 "2024-05-03T10:00:00.000250"] 3)
    = (Returns (testimonial_dict <$> rs),
       mkTable [mkRow 1 "Ann" "a" 1 "2024-05-01T10:00:00";
                mkRow 2 "Bob" "b" 0 "2024-05-02T10:00:00";
                mkRow 3 "Cy" "c" 1 "2024-05-03T10:00:00.000250"] 3) ∧
    StronglySorted created_desc rs ∧
    mkRow 3 "Cy" "c" 1 "2024-05-03T10:00:00.000250" ∈ rs.
Proof.
  destruct (get_testimonials_spec
              (mkTable [mkRow 1 "Ann" "a" 1 "2024-05-01T10:00:00";
                        mkRow 2 "Bob" "b" 0 "2024-05-02T10:00:00";
                        mkRow 3 "Cy" "c" 1 "2024-05-03T10:00:00.000250"] 3))
    as (rs & Hrun & _ & Hsorted & _ & Hflag & _).
  exists rs. split; [exact Hrun|]. split; [exact Hsorted|].
  apply (Hflag ltac:(split; by_evaluation)
           (mkRow 3 "Cy" "c" 1 "2024-05-03T10:00:00.000250")).
  - by_evaluation.
  - reflexivity.
Defined.







(** C8. In a well-formed table whose next id is one the id column can hold
    (it fits the signed 64-bit range, as every id SQLite hands out does),
    the record [submit_testimonial] returns has
    approved = false and no listed testimonial carries its id; after one
    [toggle_testimonial_approval] on that id the listing holds the stored
    testimonial, shown approved; after a second one no listed testimonial
    carries the id again, the table being back to what it was after the
    submission. *)
Theorem approval_toggle_visibility now payload db :
  well_formed db → fits_int64 (next_rowid db) →
  ∃ tid answer db1 answer2 db2 answer3 db3 listing2,
    submit_testimonial now payload db = (Returns answer, db1) ∧
    dict_get "id" answer = Some (JInt tid) ∧
    dict_get "approved" answer = Some (JBool false) ∧
    (Some (JInt tid) ∉ listed_ids (get_testimonials db1).1) ∧
    toggle_testimonial_approval tid db1 = (Returns answer2, db2) ∧
    get_testimonials db2 = (Returns listing2, db2) ∧
    testimonial_dict (mkRow tid (author payload) (text payload) 1 now) ∈ listing2 ∧
    Some (JInt tid) ∈ listed_ids (get_testimonials db2).1 ∧
    toggle_testimonial_approval tid db2 = (Returns answer3, db3) ∧
    (Some (JInt tid) ∉ listed_ids (get_testimonials db3).1) ∧
    db3 = db1.
Proof.
  intros Hwf Hfits.
  pose proof (submit_well_formed now payload db Hwf) as Hwf1.
  rewrite submit_testimonial_unfold in Hwf1. cbn [snd] in Hwf1.
  destruct (next_rowid_fresh db) as (_ & Hlt & _).
  set (tid := next_rowid db) in *.
  set (r0 := mkRow tid (author payload) (text payload) 0 now) in *.
  set (db1 := mkTable (rows db ++ [r0]) tid) in *.
  assert (r0 ∈ rows db1) as Hr0 by (apply elem_of_app; right; left).
  assert (¬ ∃ r, r ∈ rows db1 ∧ row_id r = tid ∧ row_approved r = 1) as Hhidden.
  { intros (r & [Hr| ->%list_elem_of_singleton]%elem_of_app & Hid & Hap).
    - specialize (Hlt r Hr). lia.
    - discriminate. }
  pose proof (toggle_found r0 db1 Hfits (proj1 Hwf1) Hr0) as Hrun2.
  change (row_id r0) with tid in Hrun2.
  change (flip (row_approved r0)) with 1 in Hrun2.
  set (db2 := mkTable (set_approved 1 tid <$> rows db1) (seq db1)) in *.
  assert (mkRow tid (author payload) (text payload) 1 now ∈ rows db2) as Hr1.
  { apply list_elem_of_fmap. exists r0. split; [|done].
    unfold set_approved. by rewrite decide_True. }
  pose proof (toggle_twice tid db1 Hwf1) as Hback.
  rewrite Hrun2 in Hback. cbn [snd] in Hback.
  destruct (toggle_testimonial_approval tid db2) as [o3 db3] eqn:Hrun3.
  cbn [snd] in Hback. subst db3.
  assert (∃ answer3, o3 = Returns answer3) as [answer3 ->].
  { assert (well_formed db2) as Hwf2.
    { pose proof (toggle_well_formed tid db1 Hwf1) as H. by rewrite Hrun2 in H. }
    pose proof (toggle_found (mkRow tid (author payload) (text payload) 1 now)
                  db2 Hfits (proj1 Hwf2) Hr1) as H.
    change (row_id _) with tid in H. rewrite Hrun3 in H.
    eexists. by injection H. }
  eexists tid, _, db1, _, db2, answer3, db1, _.
  split; [apply submit_testimonial_unfold|].
  split; [reflexivity|]. split; [reflexivity|].
  split; [by rewrite listed_ids_get_testimonials|].
  split; [exact Hrun2|].
  split; [apply get_testimonials_unfold|].
  split.
  { apply list_elem_of_fmap_2.
    by apply (elem_of_fetchall_approved _ db2). }
  split.
  { apply listed_ids_get_testimonials. by eexists (mkRow _ _ _ _ _). }
  split; [exact Hrun3|].
  split; [by rewrite listed_ids_get_testimonials | done].
Qed.

Lemma approval_toggle_visibility_witness :
  ∃ tid answer db1 answer2 db2 answer3 db3 listing2,
    submit_testimonial "2024-05-01T10:00:00" (mkTestimonialIn "Jane" "Great club!")
      (mkTable [mkRow 1 "Ann" "a" 1 "2024-04-30T08:15:00"] 1)
      = (Returns answer, db1) ∧
    dict_get "id" answer = Some (JInt tid) ∧
    dict_get "approved" answer = Some (JBool false) ∧
    (Some (JInt tid) ∉ listed_ids (get_testimonials db1).1) ∧
    toggle_testimonial_approval tid db1 = (Returns answer2, db2) ∧
    get_testimonials db2 = (Returns listing2, db2) ∧
    testimonial_dict (mkRow tid "Jane" "Great club!" 1 "2024-05-01T10:00:00")
      ∈ listing2 ∧
    Some (JInt tid) ∈ listed_ids (get_testimonials db2).1 ∧
    toggle_testimonial_approval tid db2 = (Returns answer3, db3) ∧
    (Some (JInt tid) ∉ listed_ids (get_testimonials db3).1) ∧
    db3 = db1.
Proof.
  apply (approval_toggle_visibility "2024-05-01T10:00:00"
           (mkTestimonialIn "Jane" "Great club!")
           (mkTable [mkRow 1 "Ann" "a" 1 "2024-04-30T08:15:00"] 1)).
  - split; by_evaluation.
  - by_evaluation.
Defined.

End store_claims.

(** * Further properties of the roster *)

Section roster_more.
Import Roster.
Implicit Types (acts : gmap string Activity) (a : Activity).
Implicit Types (email activity_name n : string) (ps : list string).
Implicit Types (r : Roster.request) (rs : list Roster.request).

Lemma set_participants_same a : set_participants a (participants a) = a.
Proof. by destruct a. Qed.

Lemma set_participants_twice a ps ps' :
  set_participants (set_participants a ps) ps' = set_participants a ps'.
Proof. done. Qed.

(** On a duplicate-free list, [list.remove] is the filter. *)
Lemma list_remove_filter email ps :
  NoDup ps → email ∈ ps →
  list_remove email ps = Some (filter (λ p, p ≠ email) ps).
Proof.
  induction ps as [|p ps IH]; [by intros _ ?%elem_of_nil|].
  intros [Hp Hnd]%NoDup_cons Hin. simpl. case_decide as Heq.
  - subst p. rewrite filter_cons_False by (intros H; by apply H).
    f_equal. symmetry. clear IH Hin Hnd.
    induction ps as [|q ps IH]; [done|].
    apply not_elem_of_cons in Hp as [Hne Hp].
    rewrite filter_cons_True by congruence. f_equal. by apply IH.
  - apply elem_of_cons in Hin as [->|Hin]; [done|].
    rewrite (IH Hnd Hin). simpl. by rewrite filter_cons_True.
Qed.

(** What a request does to its own activity, and whether it returns,
    depends on that activity's entry alone. *)
Lemma handle_local r acts acts' :
  acts !! target r = acts' !! target r →
  (Roster.handle r acts).1 = (Roster.handle r acts').1 ∧
  (Roster.handle r acts).2 !! target r = (Roster.handle r acts').2 !! target r.
Proof.
  destruct r as [n e|n e]; simpl; intros Heq.
  - unfold signup_for_activity. rewrite <-Heq.
    destruct (acts !! n) as [a|] eqn:Ha; [|simpl; split; [done | congruence]].
    case_decide; simpl; [simpl; split; [done | congruence]|]. by rewrite !lookup_insert_eq.
  - unfold unregister_from_activity. rewrite <-Heq.
    destruct (acts !! n) as [a|] eqn:Ha; [|simpl; split; [done | congruence]].
    case_decide; simpl; [simpl; split; [done | congruence]|].
    destruct (list_remove _ _); simpl; [|simpl; split; [done | congruence]]. by rewrite !lookup_insert_eq.
Qed.

Lemma handle_other r acts n :
  n ≠ target r → (Roster.handle r acts).2 !! n = acts !! n.
Proof. destruct r; simpl; [apply signup_other | apply unregister_other]. Qed.

Lemma handle_metadata r acts n :
  metadata <$> (Roster.handle r acts).2 !! n = metadata <$> acts !! n.
Proof.
  destruct (decide (n = target r)) as [->|Hne]; [|by rewrite handle_other].
  destruct (acts !! target r) as [a|] eqn:Ha.
  - destruct r as [m e|m e]; simpl in *.
    + by rewrite (signup_same _ _ _ _ Ha).
    + by rewrite (unregister_same _ _ _ _ Ha).
  - destruct r as [m e|m e]; simpl in *.
    + rewrite signup_not_found by done. simpl. by rewrite Ha.
    + rewrite unregister_not_found by done. simpl. by rewrite Ha.
Qed.

(** X1. A roster request that raises leaves the roster exactly as it was,
    and what it raises is one of the handler's own HTTP errors: the 404 when
    the activity is unknown, else the 400 of its route.  The [ValueError] of
    [list.remove] never escapes. *)
Theorem roster_request_failure r acts e :
  (Roster.handle r acts).1 = Raises e →
  (Roster.handle r acts).2 = acts ∧
  match r with
  | Signup n email =>
      (e = ActivityNotFound ∧ acts !! n = None) ∨
      (e = AlreadyEnrolled ∧ email ∈ participants_of acts n)
  | Unregister n email =>
      (e = ActivityNotFound ∧ acts !! n = None) ∨
      (e = NotEnrolled ∧ is_Some (acts !! n) ∧ email ∉ participants_of acts n)
  end.
Proof.
  destruct r as [n email|n email]; simpl.
  - unfold signup_for_activity, participants_of.
    destruct (acts !! n) as [a|]; simpl; [|intros [= <-]; auto].
    case_decide; simpl; [intros [= <-]; auto | done].
  - unfold unregister_from_activity, participants_of.
    destruct (acts !! n) as [a|]; simpl; [|intros [= <-]; auto].
    case_decide as Hin; simpl; [intros [= <-]; auto|].
    destruct (list_remove _ _) eqn:Hrm; simpl; [done|].
    apply list_remove_None in Hrm. intros _. destruct (Hrm Hin).
Qed.

Lemma roster_request_failure_witness :
  (Roster.handle (Unregister "Chess Club" "zoe@mergington.edu") activities).2
    = activities ∧
  ((NotEnrolled = ActivityNotFound ∧ activities !! "Chess Club" = None) ∨
   (NotEnrolled = NotEnrolled ∧ is_Some (activities !! "Chess Club") ∧
    "zoe@mergington.edu" ∉ participants_of activities "Chess Club")).
Proof.
  apply (roster_request_failure (Unregister "Chess Club" "zoe@mergington.edu")
           activities NotEnrolled).
  vm_compute. reflexivity.
Defined.

(** X2. No run of requests creates or deletes an activity or touches a
    description, a schedule or a capacity: under every name the roster
    holds after the run what it held before, participants apart. *)
Theorem roster_metadata_fixed rs acts n :
  metadata <$> Roster.serve rs acts !! n = metadata <$> acts !! n.
Proof.
  revert acts. induction rs as [|r rs IH]; intros acts; [done|].
  simpl. rewrite IH. apply handle_metadata.
Qed.

(** X3. Unregistering an email right after its successful signup undoes
    the signup: the unregistration returns and the roster is the one before
    the signup. *)
Theorem signup_then_unregister activity_name email acts a :
  acts !! activity_name = Some a → email ∉ participants a →
  unregister_from_activity activity_name email
    (signup_for_activity activity_name email acts).2
  = (Returns [("message",
               JStr ("Unregistered " +:+ email +:+ " from " +:+ activity_name))],
     acts).
Proof.
  intros Ha Hout. rewrite (signup_ok _ _ _ _ Ha Hout). cbn [snd].
  unfold unregister_from_activity. rewrite lookup_insert_eq. cbn [participants set_participants].
  rewrite decide_False.
  - rewrite (list_remove_snoc _ _ Hout). rewrite insert_insert_eq.
    rewrite set_participants_twice, set_participants_same. by rewrite insert_id.
  - intros Hn. apply Hn, elem_of_app. right. left.
Qed.

Lemma signup_then_unregister_witness :
  unregister_from_activity "Art Club" "zoe@mergington.edu"
    (signup_for_activity "Art Club" "zoe@mergington.edu" activities).2
  = (Returns [("message",
               JStr ("Unregistered " +:+ "zoe@mergington.edu" +:+ " from " +:+ "Art Club"))],
     activities).
Proof.
  apply (signup_then_unregister "Art Club" "zoe@mergington.edu" activities
           (mkActivity "Explore your creativity through painting and drawing"
              "Thursdays, 3:30 PM - 5:00 PM" 15
              ["amelia@mergington.edu"; "harper@mergington.edu"])).
  - vm_compute. reflexivity.
  - by_evaluation.
Defined.

(** X4. On an activity whose list holds no email twice, a successful
    unregistration leaves exactly the other participants, in their order,
    and the email is gone; signing the email up again then puts it behind
    all of them, whatever place it had before. *)
Theorem unregister_then_signup activity_name email acts a :
  acts !! activity_name = Some a → NoDup (participants a) →
  email ∈ participants a →
  let others := filter (λ p, p ≠ email) (participants a) in
  let acts1 := (unregister_from_activity activity_name email acts).2 in
  participants_of acts1 activity_name = others ∧
  (email ∉ others) ∧
  participants_of (signup_for_activity activity_name email acts1).2 activity_name
    = others ++ [email].
Proof.
  intros Ha Hnd Hin. cbn zeta.
  pose proof (unregister_same activity_name email acts a Ha) as H1.
  rewrite (list_remove_filter _ _ Hnd Hin) in H1. cbn [default] in H1.
  assert (email ∉ filter (λ p, p ≠ email) (participants a)) as Hgone.
  { intros [Hne _]%list_elem_of_filter. by apply Hne. }
  split; [by rewrite (participants_of_Some _ _ _ H1)|]. split; [done|].
  rewrite (participants_of_Some _ _ _ (signup_same _ email _ _ H1)).
  cbn [participants set_participants]. by rewrite decide_False.
Qed.

Lemma unregister_then_signup_witness :
  participants_of
    (signup_for_activity "Drama Club" "ella@mergington.edu"
       (unregister_from_activity "Drama Club" "ella@mergington.edu" activities).2).2
    "Drama Club"
  = filter (λ p, p ≠ "ella@mergington.edu")
      ["ella@mergington.edu"; "scarlett@mergington.edu"] ++ ["ella@mergington.edu"].
Proof.
  refine (proj2 (proj2 (unregister_then_signup "Drama Club" "ella@mergington.edu"
            activities
            (mkActivity "Act, direct, and produce plays and performances"
               "Mondays and Wednesdays, 4:00 PM - 5:30 PM" 20
               ["ella@mergington.edu"; "scarlett@mergington.edu"]) _ _ _))).
  - vm_compute. reflexivity.
  - by_evaluation.
  - by_evaluation.
Defined.

(** X5. Requests addressed to different activities do not interfere:
    served in either order they leave the same roster, and each returns or
    raises what it would have done had the other not been served. *)
Theorem requests_on_different_activities_commute r1 r2 acts :
  target r1 ≠ target r2 →
  Roster.serve [r1; r2] acts = Roster.serve [r2; r1] acts ∧
  (Roster.handle r2 (Roster.handle r1 acts).2).1 = (Roster.handle r2 acts).1 ∧
  (Roster.handle r1 (Roster.handle r2 acts).2).1 = (Roster.handle r1 acts).1.
Proof.
  intros Hne.
  assert ((Roster.handle r1 acts).2 !! target r2 = acts !! target r2) as H12
    by (by apply handle_other).
  assert ((Roster.handle r2 acts).2 !! target r1 = acts !! target r1) as H21
    by (by apply handle_other).
  destruct (handle_local r2 _ _ H12) as [Ho2 Hs2].
  destruct (handle_local r1 _ _ H21) as [Ho1 Hs1].
  split; [|by split]. unfold Roster.serve. simpl. apply map_eq. intros k.
  destruct (decide (k = target r2)) as [->|Hk2].
  - rewrite Hs2. by rewrite (handle_other r1) by done.
  - rewrite (handle_other r2) by done.
    destruct (decide (k = target r1)) as [->|Hk1].
    + by rewrite Hs1.
    + by rewrite !handle_other by done.
Qed.

Lemma requests_on_different_activities_commute_witness :
  Roster.serve [Signup "Art Club" "zoe@mergington.edu";
                Unregister "Gym Class" "john@mergington.edu"] activities
  = Roster.serve [Unregister "Gym Class" "john@mergington.edu";
                  Signup "Art Club" "zoe@mergington.edu"] activities.
Proof.
  refine (proj1 (requests_on_different_activities_commute
                   (Signup "Art Club" "zoe@mergington.edu")
                   (Unregister "Gym Class" "john@mergington.edu") activities _)).
  discriminate.
Defined.

(** X6. Participant order is enrollment order: signing up, one after the
    other, emails that are pairwise different and new to an existing
    activity leaves its list as the old list followed by these emails in
    the order of the requests. *)
Theorem signups_append_in_order emails activity_name acts a :
  acts !! activity_name = Some a → NoDup emails →
  (∀ email, email ∈ emails → email ∉ participants a) →
  participants_of (Roster.serve (Signup activity_name <$> emails) acts) activity_name
  = participants a ++ emails.
Proof.
  revert acts a. induction emails as [|e emails IH]; intros acts a Ha Hnd Hnew.
  - simpl. rewrite app_nil_r. by apply participants_of_Some.
  - apply NoDup_cons in Hnd as [He Hnd]. rewrite fmap_cons. simpl.
    assert (e ∉ participants a) as Hout by (apply Hnew; left).
    rewrite (signup_ok _ _ _ _ Ha Hout). cbn [snd].
    rewrite (IH _ (set_participants a (participants a ++ [e]))).
    + cbn [participants set_participants]. by rewrite <-app_assoc.
    + apply lookup_insert_eq.
    + done.
    + intros email Hin. cbn [participants set_participants].
      rewrite not_elem_of_app. split; [apply Hnew; by right|].
      intros ->%list_elem_of_singleton. done.
Qed.

Lemma signups_append_in_order_witness :
  participants_of
    (Roster.serve
       (Signup "Debate Team" <$> ["zoe@mergington.edu"; "yan@mergington.edu"])
       activities) "Debate Team"
  = ["charlotte@mergington.edu"; "henry@mergington.edu"]
    ++ ["zoe@mergington.edu"; "yan@mergington.edu"].
Proof.
  apply (signups_append_in_order ["zoe@mergington.edu"; "yan@mergington.edu"]
           "Debate Team" activities
           (mkActivity "Develop public speaking and argumentation skills"
              "Fridays, 4:00 PM - 5:30 PM" 12
              ["charlotte@mergington.edu"; "henry@mergington.edu"])).
  - vm_compute. reflexivity.
  - by_evaluation.
  - apply Forall_forall. by_evaluation.
Defined.

Lemma participants_of_insert_ne acts activity_name n a :
  activity_name ≠ n →
  participants_of (<[activity_name := a]> acts) n = participants_of acts n.
Proof. intros Hne. unfold participants_of. by rewrite lookup_insert_ne. Qed.

Lemma handle_length r acts n :
  Z.of_nat (length (participants_of (Roster.handle r acts).2 n))
  = Z.of_nat (length (participants_of acts n)) + delta n r acts.
Proof.
  unfold delta. destruct r as [m e|m e]; cbn [Roster.handle target].
  - unfold signup_for_activity.
    destruct (acts !! m) as [a|] eqn:Ha; cbn [fst snd]; [|lia].
    case_decide as Hin; cbn [fst snd]; [lia|].
    case_decide as Hmn.
    + subst m. rewrite participants_of_insert, (participants_of_Some _ _ _ Ha).
      cbn [participants set_participants]. rewrite length_app. simpl. lia.
    + rewrite participants_of_insert_ne by done. lia.
  - unfold unregister_from_activity.
    destruct (acts !! m) as [a|] eqn:Ha; cbn [fst snd]; [|lia].
    case_decide as Hin; cbn [fst snd]; [lia|].
    destruct (list_remove e (participants a)) as [ps|] eqn:Hrm; cbn [fst snd]; [|lia].
    case_decide as Hmn.
    + subst m. rewrite participants_of_insert, (participants_of_Some _ _ _ Ha).
      cbn [participants set_participants].
      apply list_remove_Some in Hrm as (l1 & l2 & -> & _ & ->).
      rewrite !length_app. simpl. lia.
    + rewrite participants_of_insert_ne by done. lia.
Qed.

(** X7. Over any run, the participant count of an activity is its count
    before the run, plus one for every signup for it that returned, minus
    one for every unregistration from it that returned; requests that
    raise, and requests for other activities, do not count. *)
Theorem participant_count_accounting rs acts n :
  Z.of_nat (length (participants_of (Roster.serve rs acts) n))
  = Z.of_nat (length (participants_of acts n)) + tally n rs acts.
Proof.
  revert acts. induction rs as [|r rs IH]; intros acts; simpl; [lia|].
  rewrite IH, handle_length. lia.
Qed.

(** X8. A signup leaves the email enrolled whenever the activity exists,
    and serving the same signup a second time changes nothing more. *)
Theorem signup_is_idempotent activity_name email acts :
  (signup_for_activity activity_name email
     (signup_for_activity activity_name email acts).2).2
  = (signup_for_activity activity_name email acts).2 ∧
  (is_Some (acts !! activity_name) →
   email ∈ participants_of (signup_for_activity activity_name email acts).2
             activity_name).
Proof.
  destruct (acts !! activity_name) as [a|] eqn:Ha.
  - destruct (decide (email ∈ participants a)) as [Hin|Hout].
    + rewrite (signup_already _ _ _ _ Ha Hin). cbn [snd].
      rewrite (signup_already _ _ _ _ Ha Hin). split; [done|].
      intros _. by rewrite (participants_of_Some _ _ _ Ha).
    + rewrite (signup_ok _ _ _ _ Ha Hout). cbn [snd].
      assert (email ∈ participants a ++ [email]) as Hnow
        by (apply elem_of_app; right; left).
      rewrite (signup_already _ email _ _ (lookup_insert_eq acts _ _)) by done.
      split; [done|]. intros _. by rewrite participants_of_insert.
  - rewrite (signup_not_found _ _ _ Ha). cbn [snd].
    rewrite (signup_not_found _ _ _ Ha). split; [done|]. by intros [? ?].
Qed.

Lemma signup_is_idempotent_witness :
  "zoe@mergington.edu"
    ∈ participants_of
        (signup_for_activity "Soccer Team" "zoe@mergington.edu" activities).2
        "Soccer Team".
Proof.
  apply (proj2 (signup_is_idempotent "Soccer Team" "zoe@mergington.edu" activities)).
  by_evaluation.
Defined.

End roster_more.

(** * Further properties of the testimonial store *)

Section store_more.
Import Testimonials.
Implicit Types (db : Table) (r : Row) (rs : list Row) (tid v : Z).
Implicit Types (payload : TestimonialIn) (now : string).
Implicit Types (q : Testimonials.request) (qs : list Testimonials.request).

Lemma toggle_unfold tid db :
  toggle_testimonial_approval tid db =
    if decide (fits_int64 tid) then
      match fetchone_approved tid (connect db) with
      | None => (Raises TestimonialNotFound, db)
      | Some a =>
          (Returns [("id", JInt tid); ("approved", JBool (bool_of_int (flip a)))],
           mkTable (set_approved (flip a) tid <$> rows db) (seq db))
      end
    else (Raises OverflowError, db).
Proof. reflexivity. Qed.

(** The ways a toggle can go, for any table: it raises and leaves the
    table alone, or it returns and has rewritten the rows of that id. *)
Lemma toggle_cases tid db :
  (∃ e, toggle_testimonial_approval tid db = (Raises e, db) ∧
        ((e = OverflowError ∧ ¬ fits_int64 tid) ∨
         (e = TestimonialNotFound ∧ fits_int64 tid ∧ tid ∉ row_id <$> rows db))) ∨
  (fits_int64 tid ∧ tid ∈ row_id <$> rows db ∧ ∃ v, (v = 0 ∨ v = 1) ∧
   toggle_testimonial_approval tid db =
     (Returns [("id", JInt tid); ("approved", JBool (bool_of_int v))],
      mkTable (set_approved v tid <$> rows db) (seq db))).
Proof.
  rewrite toggle_unfold. case_decide as Hfits; [|left; eexists; eauto].
  destruct (fetchone_approved tid (connect db)) as [a|] eqn:Hf.
  - right. split; [done|]. split.
    + destruct (decide (tid ∈ row_id <$> rows db)) as [|Hout]; [done|].
      apply (fetchone_approved_None tid (connect db)) in Hout. congruence.
    + exists (flip a). split; [|done]. unfold flip. case_decide; auto.
  - left. eexists. split; [done|]. right. split; [done|]. split; [done|].
    by apply (fetchone_approved_None tid (connect db)).
Qed.


Lemma set_approved_other v tid r : row_id r ≠ tid → set_approved v tid r = r.
Proof. intros Hne. unfold set_approved. by rewrite decide_False. Qed.






Lemma max_rowid_le rs b :
  0 ≤ b → (∀ r, r ∈ rs → row_id r ≤ b) → max_rowid rs ≤ b.
Proof.
  intros Hb. unfold max_rowid. induction rs as [|r rs IH]; intros Hrs; [done|].
  rewrite fmap_cons. cbn [foldr].
  apply Z.max_lub; [apply Hrs; left | apply IH; intros; apply Hrs; by right].
Qed.

(** Ids 1 to the number of rows, and a counter equal to that number. *)
Lemma dense_ids_next db :
  row_id <$> rows db = seqZ 1 (Z.of_nat (length (rows db))) →
  seq db = Z.of_nat (length (rows db)) →
  next_rowid db = Z.of_nat (length (rows db)) + 1.
Proof.
  intros Hids Hseq. unfold next_rowid. rewrite Hseq.
  assert (max_rowid (rows db) ≤ Z.of_nat (length (rows db))); [|lia].
  apply max_rowid_le; [lia|]. intros r Hr.
  assert (row_id r ∈ seqZ 1 (Z.of_nat (length (rows db)))) as Hin
    by (rewrite <-Hids; by apply list_elem_of_fmap_2).
  apply elem_of_seqZ in Hin. lia.
Qed.

Lemma dense_ids_step q db :
  row_id <$> rows db = seqZ 1 (Z.of_nat (length (rows db))) →
  seq db = Z.of_nat (length (rows db)) →
  let db' := Testimonials.handle q db in
  row_id <$> rows db' = seqZ 1 (Z.of_nat (length (rows db'))) ∧
  seq db' = Z.of_nat (length (rows db')).
Proof.
  intros Hids Hseq. destruct q as [now payload|tid|]; cbn zeta; cbn [Testimonials.handle].
  - rewrite submit_testimonial_unfold. cbn [snd rows seq].
    rewrite (dense_ids_next db Hids Hseq).
    rewrite fmap_app, length_app, Hids. cbn [length fmap list_fmap row_id].
    replace (length (rows db) + 1)%nat with (S (length (rows db))) by lia.
    rewrite seqZ_S. split; [f_equal; f_equal; lia | lia].
  - destruct (toggle_cases tid db) as [(e & -> & _)|(_ & _ & v & _ & ->)]; [done|].
    cbn [snd rows seq]. by rewrite set_approved_ids, length_fmap.
  - done.
Qed.

Lemma dense_ids_serve qs db :
  row_id <$> rows db = seqZ 1 (Z.of_nat (length (rows db))) →
  seq db = Z.of_nat (length (rows db)) →
  let db' := Testimonials.serve qs db in
  row_id <$> rows db' = seqZ 1 (Z.of_nat (length (rows db'))) ∧
  seq db' = Z.of_nat (length (rows db')).
Proof.
  revert db. induction qs as [|q qs IH]; intros db Hids Hseq; [done|].
  destruct (dense_ids_step q db Hids Hseq) as [Hids' Hseq'].
  apply (IH _ Hids' Hseq').
Qed.

Lemma handle_rows_length q db :
  (length (rows (Testimonials.handle q db)) ≤ S (length (rows db)))%nat.
Proof.
  destruct q as [now payload|tid|]; cbn [Testimonials.handle].
  - rewrite submit_testimonial_unfold. cbn [snd rows].
    rewrite length_app. simpl. lia.
  - destruct (toggle_cases tid db) as [(e & -> & _)|(_ & _ & v & _ & ->)];
      cbn [snd rows]; [lia|]. rewrite length_fmap. lia.
  - simpl. lia.
Qed.

Lemma serve_rows_length qs db :
  (length (rows (Testimonials.serve qs db)) ≤ length (rows db) + length qs)%nat.
Proof.
  revert db. induction qs as [|q qs IH]; intros db; simpl; [lia|].
  change (foldl _ ?d qs) with (Testimonials.serve qs d).
  pose proof (IH (Testimonials.handle q db)).
  pose proof (handle_rows_length q db). lia.
Qed.

(** The ids handed out in a run from a fresh database fit the id column
    for as long as the run is shorter than the column's largest value. *)
Lemma fresh_store_next_id_fits qs :
  Z.of_nat (length qs) < 9223372036854775807 →
  fits_int64 (next_rowid (Testimonials.serve qs (init_db None))).
Proof.
  intros Hshort.
  destruct (dense_ids_serve qs (init_db None) eq_refl eq_refl) as [Hids Hseq].
  rewrite (dense_ids_next _ Hids Hseq).
  pose proof (serve_rows_length qs (init_db None)) as Hlen.
  change (length (rows (init_db None))) with 0%nat in Hlen.
  unfold fits_int64. lia.
Qed.


(** ** The public listing *)

Lemma listing_unfold db :
  listing db = testimonial_dict <$> fetchall_approved (connect db).
Proof. reflexivity. Qed.

Lemma elem_of_listing d db :
  d ∈ listing db ↔ ∃ r, d = testimonial_dict r ∧ r ∈ rows db ∧ row_approved r = 1.
Proof.
  rewrite listing_unfold, list_elem_of_fmap.
  by setoid_rewrite elem_of_fetchall_approved.
Qed.

Lemma elem_of_set_approved v tid rs r' :
  r' ∈ set_approved v tid <$> rs ↔ ∃ r, r' = set_approved v tid r ∧ r ∈ rs.
Proof. apply list_elem_of_fmap. Qed.

(** X11. A submission never changes what the public listing shows: the
    answer of [get_testimonials] after [submit_testimonial] is its answer
    before. *)
Theorem submit_keeps_listing now payload db :
  (get_testimonials (submit_testimonial now payload db).2).1
  = (get_testimonials db).1.
Proof.
  rewrite submit_testimonial_unfold, !get_testimonials_unfold. cbn [fst snd rows].
  rewrite filter_app, filter_cons_False by done.
  by rewrite filter_nil, app_nil_r.
Qed.

(** X12. In a well-formed table a toggle that returns is undone by a second
    toggle of the same id: the second call returns the opposite approval
    state and the table is again the one before the first call. *)
Theorem toggle_twice_restores tid db answer db1 :
  well_formed db →
  toggle_testimonial_approval tid db = (Returns answer, db1) →
  ∃ b, answer = [("id", JInt tid); ("approved", JBool b)] ∧
       toggle_testimonial_approval tid db1
       = (Returns [("id", JInt tid); ("approved", JBool (negb b))], db).
Proof.
  intros Hwf Hrun. pose proof (toggle_twice tid db Hwf) as Hback.
  pose proof (toggle_well_formed tid db Hwf) as Hwf1.
  rewrite Hrun in Hback, Hwf1. cbn [snd] in Hback, Hwf1.
  destruct (toggle_cases tid db) as [(e & Hno & _)|(Hfits & Hin & _)]; [congruence|].
  apply list_elem_of_fmap in Hin as (r & -> & Hr).
  rewrite (toggle_found r db Hfits (proj1 Hwf) Hr) in Hrun. injection Hrun as <- <-.
  exists (bool_of_int (flip (row_approved r))). split; [done|].
  set (r1 := set_approved (flip (row_approved r)) (row_id r) r).
  assert (r1 ∈ set_approved (flip (row_approved r)) (row_id r) <$> rows db) as Hr1
    by (by apply list_elem_of_fmap_2).
  assert (row_id r1 = row_id r) as Hid by apply set_approved_id.
  pose proof (toggle_found r1 _ (eq_ind_r fits_int64 Hfits Hid) (proj1 Hwf1) Hr1)
    as Hrun2.
  assert (row_approved r1 = flip (row_approved r)) as Hap
    by (unfold r1, set_approved; by rewrite decide_True).
  rewrite Hid, Hap in Hrun2. rewrite Hrun2 in Hback. cbn [snd] in Hback.
  rewrite Hrun2, Hback. do 3 f_equal.
  assert (flip (row_approved r) = 0 ∨ flip (row_approved r) = 1) as Hv
    by (unfold flip; case_decide; auto).
  by destruct (flip_negb _ Hv) as (-> & _ & _).
Qed.

Lemma toggle_twice_restores_witness :
  ∃ b, [("id", JInt 1); ("approved", JBool false)]
       = [("id", JInt 1); ("approved", JBool b)] ∧
       toggle_testimonial_approval 1
         (mkTable [mkRow 1 "Ann" "a" 0 "2024-04-30T08:15:00"] 1)
       = (Returns [("id", JInt 1); ("approved", JBool (negb b))],
          mkTable [mkRow 1 "Ann" "a" 1 "2024-04-30T08:15:00"] 1).
Proof.
  apply (toggle_twice_restores 1
           (mkTable [mkRow 1 "Ann" "a" 1 "2024-04-30T08:15:00"] 1)).
  - split; by_evaluation.
  - reflexivity.
Defined.

(** X13. What a toggle answers is what the listing then shows: the
    returned state is approved exactly when a testimonial with that id is
    in the listing of the table the call leaves behind.  This holds for any
    table. *)
Theorem toggle_answer_matches_listing tid db answer db1 :
  toggle_testimonial_approval tid db = (Returns answer, db1) →
  dict_get "approved" answer = Some (JBool true) ↔
  Some (JInt tid) ∈ listed_ids (get_testimonials db1).1.
Proof.
  intros Hrun. rewrite listed_ids_get_testimonials.
  destruct (toggle_cases tid db) as [(e & Hno & _)|(_ & Hin & v & Hv & Hyes)]; [congruence|].
  rewrite Hyes in Hrun. injection Hrun as <- <-. cbn [dict_get rows].
  rewrite decide_False, decide_True by done.
  apply list_elem_of_fmap in Hin as (r0 & -> & Hr0). split.
  - intros Happ. exists (set_approved v (row_id r0) r0).
    split; [by apply list_elem_of_fmap_2|]. rewrite set_approved_id.
    split; [done|]. unfold set_approved. rewrite decide_True by done.
    cbn [row_approved]. destruct Hv as [-> | ->]; [discriminate|done].
  - intros (r' & (r & -> & Hr)%elem_of_set_approved & Hid & Happ).
    rewrite set_approved_id in Hid. unfold set_approved in Happ.
    rewrite decide_True in Happ by done. cbn [row_approved] in Happ.
    by rewrite Happ.
Qed.

Lemma toggle_answer_matches_listing_witness :
  dict_get "approved" [("id", JInt 1); ("approved", JBool true)]
    = Some (JBool true) ↔
  Some (JInt 1)
    ∈ listed_ids
        (get_testimonials (mkTable [mkRow 1 "Ann" "a" 1 "2024-04-30T08:15:00"] 1)).1.
Proof.
  apply (toggle_answer_matches_listing 1
           (mkTable [mkRow 1 "Ann" "a" 0 "2024-04-30T08:15:00"] 1)).
  reflexivity.
Defined.

(** X14. A toggle changes the visibility of its own id only: a testimonial
    with any other id is in the listing after the call exactly when it was
    in the listing before, and with the same contents. *)
Theorem toggle_keeps_other_listed tid db d :
  dict_get "id" d ≠ Some (JInt tid) →
  d ∈ listing (toggle_testimonial_approval tid db).2 ↔ d ∈ listing db.
Proof.
  intros Hd. destruct (toggle_cases tid db) as [(e & -> & _)|(_ & _ & v & _ & ->)]; [done|].
  cbn [snd]. rewrite !elem_of_listing. cbn [rows].
  assert (∀ r, d = testimonial_dict r → row_id r ≠ tid) as Hother.
  { intros r -> Hid. apply Hd. cbn. by rewrite Hid. }
  split.
  - intros (r' & -> & (r & -> & Hr)%elem_of_set_approved & Happ).
    pose proof (Hother _ eq_refl) as Hne. rewrite set_approved_id in Hne.
    rewrite set_approved_other in Happ |- * by done. by exists r.
  - intros (r & -> & Hr & Happ). exists r. split; [done|]. split; [|done].
    apply elem_of_set_approved. exists r. split; [|done].
    symmetry. apply set_approved_other. by apply Hother.
Qed.

Lemma toggle_keeps_other_listed_witness :
  testimonial_dict (mkRow 2 "Bob" "b" 1 "2024-05-02T10:00:00")
    ∈ listing (toggle_testimonial_approval 1
                 (mkTable [mkRow 1 "Ann" "a" 1 "2024-05-01T10:00:00";
                           mkRow 2 "Bob" "b" 1 "2024-05-02T10:00:00"] 2)).2
  ↔ testimonial_dict (mkRow 2 "Bob" "b" 1 "2024-05-02T10:00:00")
    ∈ listing (mkTable [mkRow 1 "Ann" "a" 1 "2024-05-01T10:00:00";
                        mkRow 2 "Bob" "b" 1 "2024-05-02T10:00:00"] 2).
Proof.
  apply (toggle_keeps_other_listed 1
           (mkTable [mkRow 1 "Ann" "a" 1 "2024-05-01T10:00:00";
                     mkRow 2 "Bob" "b" 1 "2024-05-02T10:00:00"] 2)).
  discriminate.
Defined.

(** ** Toggles of different ids *)

Lemma fetchone_set_approved_ne v tid tid' rs s s' :
  tid ≠ tid' →
  fetchone_approved tid (connect (mkTable (set_approved v tid' <$> rs) s))
  = fetchone_approved tid (connect (mkTable rs s')).
Proof.
  intros Hne. unfold fetchone_approved. cbn [connect txn rows]. f_equal.
  induction rs as [|r rs IH]; [done|]. rewrite fmap_cons.
  destruct (decide (row_id r = tid)) as [Hid|Hid].
  - rewrite set_approved_other by congruence.
    by rewrite !filter_cons_True by done.
  - rewrite !filter_cons_False; [done | done | by rewrite set_approved_id].
Qed.

Lemma set_approved_commute v v' tid tid' r :
  tid ≠ tid' →
  set_approved v tid (set_approved v' tid' r)
  = set_approved v' tid' (set_approved v tid r).
Proof.
  intros Hne. unfold set_approved.
  destruct (decide (row_id r = tid)), (decide (row_id r = tid'));
    cbn [row_id]; repeat case_decide; congruence.
Qed.

(** X15. Toggles of different ids do not interfere: each returns or raises
    what it would have done alone, and served in either order they leave
    the same table. *)
Theorem toggles_of_different_ids_commute tid tid' db :
  tid ≠ tid' →
  (toggle_testimonial_approval tid (toggle_testimonial_approval tid' db).2).1
  = (toggle_testimonial_approval tid db).1 ∧
  (toggle_testimonial_approval tid (toggle_testimonial_approval tid' db).2).2
  = (toggle_testimonial_approval tid' (toggle_testimonial_approval tid db).2).2.
Proof.
  intros Hne.
  assert (∀ t t' d, t ≠ t' →
            fetchone_approved t (connect (toggle_testimonial_approval t' d).2)
            = fetchone_approved t (connect d)) as Hread.
  { intros t t' d Ht. rewrite (toggle_unfold t' d). case_decide; [|done].
    destruct (fetchone_approved t' (connect d)); cbn [snd]; [|done].
    rewrite (fetchone_set_approved_ne _ t t' (rows d) _ (seq d) Ht). by destruct d. }
  rewrite (toggle_unfold tid (toggle_testimonial_approval tid' db).2).
  rewrite (toggle_unfold tid' (toggle_testimonial_approval tid db).2).
  rewrite (Hread tid tid' db Hne), (Hread tid' tid db) by done.
  rewrite !(toggle_unfold _ db).
  destruct (decide (fits_int64 tid)), (decide (fits_int64 tid')),
    (fetchone_approved tid (connect db)) as [a|],
    (fetchone_approved tid' (connect db)) as [a'|]; cbn [fst snd rows seq];
    split; try done.
  f_equal. rewrite <-!list_fmap_compose. apply list_fmap_ext.
  intros i r _. cbn [compose]. by apply set_approved_commute.
Qed.

Lemma toggles_of_different_ids_commute_witness :
  (toggle_testimonial_approval 1
     (toggle_testimonial_approval 2
        (mkTable [mkRow 1 "Ann" "a" 1 "2024-05-01T10:00:00";
                  mkRow 2 "Bob" "b" 0 "2024-05-02T10:00:00"] 2)).2).2
  = (toggle_testimonial_approval 2
       (toggle_testimonial_approval 1
          (mkTable [mkRow 1 "Ann" "a" 1 "2024-05-01T10:00:00";
                    mkRow 2 "Bob" "b" 0 "2024-05-02T10:00:00"] 2)).2).2.
Proof.
  refine (proj2 (toggles_of_different_ids_commute 1 2
            (mkTable [mkRow 1 "Ann" "a" 1 "2024-05-01T10:00:00";
                      mkRow 2 "Bob" "b" 0 "2024-05-02T10:00:00"] 2) _)).
  discriminate.
Defined.

(** X16. In a well-formed table the listing shows no testimonial twice:
    the ids of the listed testimonials are pairwise different, and there
    are at most as many of them as rows in the table. *)
Theorem listing_has_distinct_ids db :
  well_formed db →
  NoDup (listed_ids (get_testimonials db).1) ∧
  (length (listing db) ≤ length (rows db))%nat.
Proof.
  intros [Hnd _]. rewrite listing_unfold, get_testimonials_unfold.
  cbn [fst listed_ids]. unfold fetchall_approved. cbn [connect txn].
  set (approved := filter (λ r, row_approved r = 1) (rows db)).
  assert (NoDup (row_id <$> approved)) as Hids.
  { eapply sublist_NoDup; [exact Hnd|]. apply fmap_sublist, sublist_filter. }
  split.
  - rewrite <-list_fmap_compose.
    rewrite (merge_sort_Permutation created_desc approved).
    rewrite (list_fmap_ext _ ((λ z, Some (JInt z)) ∘ row_id) approved) by done.
    rewrite list_fmap_compose. apply NoDup_fmap_2_strong; [|done].
    by intros z1 z2 _ _ [=].
  - rewrite length_fmap, (merge_sort_Permutation created_desc approved).
    apply length_filter.
Qed.

Lemma listing_has_distinct_ids_witness :
  NoDup (listed_ids
           (get_testimonials
              (mkTable [mkRow 1 "Ann" "a" 1 "2024-05-01T10:00:00";
                        mkRow 2 "Bob" "b" 1 "2024-05-02T10:00:00"] 2)).1) ∧
  (length (listing (mkTable [mkRow 1 "Ann" "a" 1 "2024-05-01T10:00:00";
                             mkRow 2 "Bob" "b" 1 "2024-05-02T10:00:00"] 2))
   ≤ length (rows (mkTable [mkRow 1 "Ann" "a" 1 "2024-05-01T10:00:00";
                            mkRow 2 "Bob" "b" 1 "2024-05-02T10:00:00"] 2)))%nat.
Proof.
  apply (listing_has_distinct_ids
           (mkTable [mkRow 1 "Ann" "a" 1 "2024-05-01T10:00:00";
                     mkRow 2 "Bob" "b" 1 "2024-05-02T10:00:00"] 2)).
  split; by_evaluation.
Defined.

(** X17. For any table, a toggle raises exactly when the id does not fit
    the signed 64-bit range or no row has it: the [OverflowError] of the
    parameter binding in the first case, the 404 "Testimonial not found" in
    the second, nothing else, and the table is left as it was.  With an id
    that fits and a row of that id it always returns, with an answer made
    of the id and a state; and the table keeps its number of rows. *)
Theorem toggle_raises_iff_unbindable_or_absent tid db :
  ((∃ e, (toggle_testimonial_approval tid db).1 = Raises e) ↔
   ¬ fits_int64 tid ∨ tid ∉ row_id <$> rows db) ∧
  (∀ e, (toggle_testimonial_approval tid db).1 = Raises e →
        (toggle_testimonial_approval tid db).2 = db ∧
        ((e = OverflowError ∧ ¬ fits_int64 tid) ∨
         (e = TestimonialNotFound ∧ fits_int64 tid ∧ tid ∉ row_id <$> rows db))) ∧
  (fits_int64 tid → tid ∈ row_id <$> rows db →
   ∃ b, (toggle_testimonial_approval tid db).1
        = Returns [("id", JInt tid); ("approved", JBool b)]) ∧
  length (rows (toggle_testimonial_approval tid db).2) = length (rows db).
Proof.
  destruct (toggle_cases tid db) as [(e & -> & He)|(Hfits & Hin & v & _ & ->)];
    cbn [fst snd rows].
  - split_and!.
    + split; [intros _|by eauto].
      destruct He as [[_ ?]|(_ & _ & ?)]; auto.
    + by intros e' [= <-].
    + intros Hfits Hin. by destruct He as [[_ ?]|(_ & _ & ?)].
    + done.
  - rewrite length_fmap. split_and!.
    + split; [by intros [? ?] | by intros [?|?]].
    + done.
    + eauto.
    + done.
Qed.

End store_more.
